(** * The [secrets] command group of the CLI (src/cli/secrets-cli.ts)

    A shallow embedding of the command handlers registered by
    [registerSecretsCli], of the JavaScript primitives they rely on, and
    of the credential broker they call.  Strings are byte strings holding
    UTF-8 text; JavaScript numbers that the handlers only use as integers
    are values of [Z]. *)

From Stdlib Require Import ZArith String Ascii List Bool Lia.
From stdpp Require Import base option list gmap strings pretty.
Import ListNotations.

Set Warnings "-register-all".
Local Open Scope Z_scope.
Local Notation "a +++ b" := (String.append a b)
  (at level 60, right associativity).

(** ** JavaScript primitives used by the handlers *)

Module JS.

(** A JavaScript number, as far as the handlers can observe one: the
    result of [parseInt] is [NaN], an infinity, or a double that holds
    an integer. *)
Inductive number : Type :=
| NaN
| Num (z : Z)
| PosInf
| NegInf.

(** [!s] is false exactly for a non-empty string. *)
Definition truthy (s : string) : bool :=
  match s with
  | EmptyString => false
  | String _ _ => true
  end.

(** [!v] for a value of type [string | undefined] (or [| null]). *)
Definition truthy_opt (v : option string) : bool :=
  match v with
  | Some s => truthy s
  | None => false
  end.

Definition byte_in (lo hi : N) (c : ascii) : bool :=
  let n := N_of_ascii c in ((lo <=? n) && (n <=? hi))%N.

(** [String.prototype.toLowerCase] on the ASCII letters.  The handlers
    only compare the result with ["open"], ["controlled"] and
    ["restricted"].  The lowercase form of a code point outside ASCII
    stays outside ASCII, but for U+212A, which gives [k], a letter of
    none of the three words; so folding A-Z decides the comparison as
    the full Unicode mapping does. *)
Definition lower_byte (c : ascii) : ascii :=
  if byte_in 65 90 c then ascii_of_N (N_of_ascii c + 32) else c.

Fixpoint toLowerCase (s : string) : string :=
  match s with
  | EmptyString => EmptyString
  | String c r => String (lower_byte c) (toLowerCase r)
  end.

(** The white space and line terminator code points that [trim],
    [trimEnd] and [parseInt] skip, as UTF-8 byte sequences: TAB, LF,
    VT, FF, CR, SPACE, U+00A0, U+1680, U+2000..U+200A, U+2028, U+2029,
    U+202F, U+205F, U+3000 and U+FEFF. *)
Definition white_space : list (list N) :=
  [ [9]; [10]; [11]; [12]; [13]; [32];
    [194; 160]; [225; 154; 128];
    [226; 128; 128]; [226; 128; 129]; [226; 128; 130]; [226; 128; 131];
    [226; 128; 132]; [226; 128; 133]; [226; 128; 134]; [226; 128; 135];
    [226; 128; 136]; [226; 128; 137]; [226; 128; 138];
    [226; 128; 168]; [226; 128; 169]; [226; 128; 175];
    [226; 129; 159]; [227; 128; 128]; [239; 187; 191] ]%N.

Fixpoint strip_prefix (p : list N) (s : list ascii) : option (list ascii) :=
  match p, s with
  | [], _ => Some s
  | n :: p', c :: s' =>
      if (N_of_ascii c =? n)%N then strip_prefix p' s' else None
  | _ :: _, [] => None
  end.

Fixpoint strip_any (ps : list (list N)) (s : list ascii)
  : option (list ascii) :=
  match ps with
  | [] => None
  | p :: ps' =>
      match strip_prefix p s with
      | Some r => Some r
      | None => strip_any ps' s
      end
  end.

Fixpoint skip_ws (fuel : nat) (ps : list (list N)) (s : list ascii)
  : list ascii :=
  match fuel with
  | O => s
  | S fuel' =>
      match strip_any ps s with
      | Some r => skip_ws fuel' ps r
      | None => s
      end
  end.

Definition trimStart_bytes (s : list ascii) : list ascii :=
  skip_ws (length s) white_space s.

Definition trimEnd_bytes (s : list ascii) : list ascii :=
  rev (skip_ws (length s) (map (@rev N) white_space) (rev s)).

Definition trimEnd (s : string) : string :=
  string_of_list_ascii (trimEnd_bytes (list_ascii_of_string s)).

Definition trim (s : string) : string :=
  string_of_list_ascii
    (trimEnd_bytes (trimStart_bytes (list_ascii_of_string s))).

(** *** [parseInt(s, 10)] *)

Definition digit_of (c : ascii) : option Z :=
  if byte_in 48 57 c then Some (Z.of_N (N_of_ascii c) - 48) else None.

(** The longest prefix of decimal digits, read as an integer; [None]
    when the text does not start with a digit. *)
Fixpoint digits_from (acc : Z) (seen : bool) (s : list ascii) : option Z :=
  match s with
  | c :: r =>
      match digit_of c with
      | Some d => digits_from (10 * acc + d) true r
      | None => if seen then Some acc else None
      end
  | [] => if seen then Some acc else None
  end.

(** The double nearest to a non-negative integer (ties to even); the
    integers below [2^53] are doubles already. *)
Definition round_to_double (z : Z) : Z :=
  let n := Z.log2 z in
  if n <? 53 then z
  else
    let sh := n - 52 in
    let q := Z.shiftr z sh in
    let r := Z.land z (Z.ones sh) in
    let half := Z.shiftl 1 (sh - 1) in
    let q' := if (half <? r) || ((r =? half) && Z.odd q) then q + 1 else q in
    Z.shiftl q' sh.

(** The number value of a signed non-negative integer: beyond the
    largest double it is an infinity.  (Past twenty significant digits
    ECMAScript lets an implementation round otherwise; the result is an
    integer or an infinity of the same sign all the same.) *)
Definition number_of_nat_value (neg : bool) (z : Z) : number :=
  let m := round_to_double z in
  if 2 ^ 1024 <=? m then (if neg then NegInf else PosInf)
  else Num (if neg then - m else m).

(** The text after leading white space, split into its sign ([true] for
    a minus) and what follows the sign. *)
Definition signed_part (s : string) : bool * list ascii :=
  let body := trimStart_bytes (list_ascii_of_string s) in
  match body with
  | c :: r =>
      if (N_of_ascii c =? 45)%N then (true, r)
      else if (N_of_ascii c =? 43)%N then (false, r)
      else (false, body)
  | [] => (false, body)
  end.

Definition parseInt10 (s : string) : number :=
  let '(neg, rest) := signed_part s in
  match digits_from 0 false rest with
  | Some z => number_of_nat_value neg z
  | None => NaN
  end.

(** Whether a text starts with a decimal digit. *)
Definition starts_with_digit (s : list ascii) : bool :=
  match s with
  | c :: _ => byte_in 48 57 c
  | [] => false
  end.

Definition isNaN (n : number) : bool :=
  match n with NaN => true | _ => false end.

(** [n <= 0]; every comparison with [NaN] is false. *)
Definition le_zero (n : number) : bool :=
  match n with
  | NaN => false
  | Num z => z <=? 0
  | PosInf => false
  | NegInf => true
  end.

(** Number to string conversion, for the integers that the handlers
    print (below [10^21] in magnitude JavaScript prints all digits). *)
Definition show_int (z : Z) : string := pretty z.

(** *** [JSON.stringify(v, null, 2)] *)

Inductive json : Type :=
| JBool (b : bool)
| JNum (z : Z)
| JStr (s : string)
| JArr (items : list json)
| JObj (props : list (string * json)).

Definition dquote : ascii := ascii_of_N 34.

Definition newline : string := String (ascii_of_N 10) "".

Definition hex_digit (n : N) : ascii :=
  if (n <? 10)%N then ascii_of_N (48 + n) else ascii_of_N (87 + n).

(** QuoteJSONString on one byte: the two mandatory escapes, the short
    escapes, [\u00xx] for the other control characters. *)
Definition quote_byte (c : ascii) : string :=
  let n := N_of_ascii c in
  if (n =? 34)%N then String "\" (String dquote "")
  else if (n =? 92)%N then "\\"
  else if (n =? 8)%N then "\b"
  else if (n =? 12)%N then "\f"
  else if (n =? 10)%N then "\n"
  else if (n =? 13)%N then "\r"
  else if (n =? 9)%N then "\t"
  else if (n <? 32)%N then
    "\u00" +++ String (hex_digit (n / 16)) (String (hex_digit (n mod 16)) "")
  else String c "".

Fixpoint quote_body (s : string) : string :=
  match s with
  | EmptyString => EmptyString
  | String c r => quote_byte c +++ quote_body r
  end.

Definition quote (s : string) : string :=
  String dquote (quote_body s +++ String dquote "").

(** SerializeJSONProperty with a gap of two spaces; [ind] is the current
    indentation. *)
Fixpoint stringify_at (ind : string) (j : json) : string :=
  match j with
  | JBool b => if b then "true" else "false"
  | JNum z => show_int z
  | JStr s => quote s
  | JArr [] => "[]"
  | JArr items =>
      let ind' := ind +++ "  " in
      "[" +++ newline +++ ind'
        +++ String.concat ("," +++ newline +++ ind')
              (map (stringify_at ind') items)
        +++ newline +++ ind +++ "]"
  | JObj [] => "{}"
  | JObj props =>
      let ind' := ind +++ "  " in
      "{" +++ newline +++ ind'
        +++ String.concat ("," +++ newline +++ ind')
              (map (fun p =>
                      quote (fst p) +++ ": " +++ stringify_at ind' (snd p))
                   props)
        +++ newline +++ ind +++ "}"
  end.

Definition stringify (j : json) : string := stringify_at "" j.

End JS.


(** ** The operations imported from ../secrets/index.js *)

Module Secrets.

(** Modelled from the spec: the type [SecretTier] of ../secrets/index.js,
    which is not part of the sources at hand.  The tier values are
    exactly the three strings [open], [controlled] and [restricted]. *)
Inductive SecretTier : Type :=
| TierOpen
| TierControlled
| TierRestricted.

Definition tier_name (t : SecretTier) : string :=
  match t with
  | TierOpen => "open"
  | TierControlled => "controlled"
  | TierRestricted => "restricted"
  end.

(** Modelled from the spec: the elements that [listSecrets] returns,
    [{name, tier, grant: {valid, expiresAt?, remainingMinutes?}}].  The
    two numbers are taken as integers, a timestamp in milliseconds and
    a count of minutes: the embedding covers the listings where they
    are whole and below [2^53] in magnitude, for which a JavaScript
    number is the integer itself; a fractional number of minutes is
    outside it. *)
Record GrantStatus : Type := {
  valid : bool;
  expiresAt : option Z;
  remainingMinutes : option Z
}.

Record SecretInfo : Type := {
  name : string;
  tier : SecretTier;
  grant : GrantStatus
}.

(** Modelled from the spec: what a call of a broker operation gives
    back to the handler, a value or a thrown [Error] with its message. *)
Inductive result (A : Type) : Type :=
| Return (a : A)
| Raise (message : string).
Arguments Return {A} a.
Arguments Raise {A} message.

(** Modelled from the spec: the operations of the broker that the
    handlers call, each a transition of the broker's persisted state.
    [getSecret] gives [string | absent]; [grantSecret] gives the
    [expiresAt] of the grant it issued. *)
Class Broker (B : Type) : Type := {
  listSecrets : B -> result (list SecretInfo) * B;
  getSecret : string -> B -> result (option string) * B;
  setSecret : string -> string -> SecretTier -> option string
              -> B -> result unit * B;
  grantSecret : string -> string -> option JS.number -> B -> result Z * B;
  revokeSecret : string -> B -> result unit * B;
  deleteSecret : string -> B -> result unit * B
}.

End Secrets.

(** ** The terminal and the process, as the handlers see them *)

Module Terminal.

(** One column and the options of [renderTable] (../terminal/table.js). *)
Record Column : Type := {
  key : string;
  header : string;
  minWidth : Z;
  flex : bool
}.

Record TableOpts : Type := {
  width : Z;
  columns : list Column;
  rows : list (list (string * string))
}.

(** What the handlers take from ../terminal/theme.js and
    ../terminal/table.js and from the process: the colouring functions,
    the table renderer, the terminal width [process.stdout.columns], the
    clock [Date.now()] in milliseconds, and the local rendering of a
    date, [new Date(t).toLocaleString()]. *)
Class Env : Type := {
  muted : string -> string;
  error : string -> string;
  success : string -> string;
  warn : string -> string;
  command : string -> string;
  renderTable : TableOpts -> string;
  stdout_columns : option Z;
  Date_now : Z;
  toLocaleString : Z -> string
}.

(** The standard input of the process, [process.stdin]: whether it is a
    terminal, and what reading it to its end gives, the data or a stream
    error. *)
Inductive Stream : Type :=
| Data (data : string)
| Failure (message : string).

Record Stdin : Type := {
  isTTY : bool;
  stream : Stream
}.

End Terminal.

(** ** The command handlers *)

Module Cli.

Import Secrets Terminal.

(** [SecretsOpts]: every option may be absent. *)
Record SecretsOpts : Type := {
  opt_tier : option string;
  opt_description : option string;
  opt_value : option string;
  opt_ttl : option string;
  opt_confirm : option bool;
  opt_json : option bool
}.

(** Truthiness of an optional boolean flag. *)
Definition flag (f : option bool) : bool :=
  match f with
  | Some b => b
  | None => false
  end.

(** A line written by [defaultRuntime.log] or [defaultRuntime.error]. *)
Inductive event : Type :=
| Log (text : string)
| Error (text : string).

(** A broker operation invoked by a handler, with its arguments. *)
Inductive call : Type :=
| ListSecrets
| GetSecret (name : string)
| SetSecret (name value : string) (tier : SecretTier)
    (description : option string)
| GrantSecret (name code : string) (ttlMinutes : option JS.number)
| RevokeSecret (name : string)
| DeleteSecret (name : string).

(** The state a handler runs in: the broker's state, the record of the
    broker operations invoked so far, and the lines written so far. *)
Record world (B : Type) : Type := {
  broker : B;
  calls : list call;
  console : list event
}.
Arguments broker {B} w.
Arguments calls {B} w.
Arguments console {B} w.

(** How a piece of handler code ends: normally with a value, with a
    thrown error, or with [defaultRuntime.exit(code)], which ends the
    process (every [exit] in secrets-cli.ts is the last statement its
    handler executes: it is returned, or followed by [return], or ends
    a [catch] block). *)
Inductive completion (A : Type) : Type :=
| Normal (a : A)
| Thrown (message : string)
| Exited (code : Z).
Arguments Normal {A} a.
Arguments Thrown {A} message.
Arguments Exited {A} code.

Definition action (B A : Type) : Type := world B -> completion A * world B.

#[export] Instance action_ret {B} : MRet (action B) :=
  fun A a w => (Normal a, w).

#[export] Instance action_bind {B} : MBind (action B) :=
  fun A A' k m w =>
    match m w with
    | (Normal a, w') => k a w'
    | (Thrown e, w') => (Thrown e, w')
    | (Exited c, w') => (Exited c, w')
    end.

Definition throw {B A} (message : string) : action B A :=
  fun w => (Thrown message, w).

Definition try_catch {B A} (body : action B A) (handler : string -> action B A)
  : action B A :=
  fun w =>
    match body w with
    | (Thrown e, w') => handler e w'
    | done => done
    end.

Definition runtime_log {B} (text : string) : action B unit :=
  fun w => (Normal tt,
            {| broker := broker w; calls := calls w;
               console := console w ++ [Log text] |}).

Definition runtime_error {B} (text : string) : action B unit :=
  fun w => (Normal tt,
            {| broker := broker w; calls := calls w;
               console := console w ++ [Error text] |}).

Definition runtime_exit {B A} (code : Z) : action B A :=
  fun w => (Exited code, w).

(** [await op(...)]: run the operation on the broker's state and record
    the call; a rejected promise is a thrown error. *)
Definition await {B A} (c : call) (op : B -> result A * B) : action B A :=
  fun w =>
    let '(r, b') := op (broker w) in
    (match r with
     | Return a => Normal a
     | Raise e => Thrown e
     end,
     {| broker := b'; calls := calls w ++ [c]; console := console w |}).

(** A handler starts with the broker's state, no call and no output. *)
Definition start {B} (b : B) : world B :=
  {| broker := b; calls := []; console := [] |}.

(** What the user observes of a run: the lines written, and how the
    handler ended. *)
Definition observed {B A} (r : completion A * world B)
  : list event * completion A :=
  (console (snd r), fst r).

Definition parseTier (tier : option string) : result SecretTier :=
  match tier with
  | None => Return TierControlled
  | Some t =>
      if negb (JS.truthy t) then Return TierControlled
      else
        let normalized := JS.toLowerCase t in
        if String.eqb normalized "open" then Return TierOpen
        else if String.eqb normalized "controlled" then Return TierControlled
        else if String.eqb normalized "restricted" then Return TierRestricted
        else Raise ("Invalid tier: " +++ t
                      +++ ". Must be open, controlled, or restricted.")
  end.

Definition lift {B A} (r : result A) : action B A :=
  match r with
  | Return a => mret a
  | Raise e => throw e
  end.

(** An invocation of [secrets set] provides [value]: as the [--value]
    option or, without one, as the trimmed data piped to a standard
    input that is not a terminal. *)
Definition provides (stdin : Stdin) (opts : SecretsOpts) (value : string)
  : Prop :=
  opt_value opts = Some value
  \/ (JS.truthy_opt (opt_value opts) = false
      /\ isTTY stdin = false
      /\ exists data, stream stdin = Data data /\ JS.trim data = value).

Section Handlers.

Context {B : Type} {ops : Broker B} {env : Env}.

(** [formatGrantStatus], on whole numbers below [2^53] in magnitude:
    there [Math.floor(r / 60)] and [r % 60] are the quotient rounded
    down and the remainder with the sign of [r], and both print all
    their digits. *)
Definition formatGrantStatus (valid : bool)
    (expiresAt remainingMinutes : option Z) : string :=
  match expiresAt with
  | None => muted "—"
  | Some e =>
      if negb valid || (e =? 0) then muted "—"
      else if e <=? Date_now then error "expired"
      else
        match remainingMinutes with
        | Some r =>
            let h := r / 60 in
            let m := Z.rem r 60 in
            success (if 0 <? h
                     then JS.show_int h +++ "h " +++ JS.show_int m +++ "m"
                     else JS.show_int m +++ "m")
        | None => success "valid"
        end
  end.

(** Modelled from the spec: the properties of an element of
    [listSecrets], in the order the spec gives them; an absent optional
    property is not serialised. *)
Definition json_of_grant (g : GrantStatus) : JS.json :=
  JS.JObj
    ([("valid", JS.JBool (valid g))]
       ++ match expiresAt g with
          | Some e => [("expiresAt", JS.JNum e)]
          | None => []
          end
       ++ match remainingMinutes g with
          | Some r => [("remainingMinutes", JS.JNum r)]
          | None => []
          end).

Definition json_of_info (s : SecretInfo) : JS.json :=
  JS.JObj [("name", JS.JStr (name s));
           ("tier", JS.JStr (tier_name (tier s)));
           ("grant", json_of_grant (grant s))].

Definition list_columns : list Column :=
  [ {| key := "Name"; header := "Name"; minWidth := 20; flex := true |};
    {| key := "Tier"; header := "Tier"; minWidth := 12; flex := false |};
    {| key := "Grant"; header := "Grant Status"; minWidth := 15;
       flex := false |};
    {| key := "Expires"; header := "Expires"; minWidth := 12;
       flex := false |} ].

Definition list_row (s : SecretInfo) : list (string * string) :=
  [ ("Name", name s);
    ("Tier",
     match tier s with
     | TierOpen => success (tier_name (tier s))
     | TierRestricted => error (tier_name (tier s))
     | TierControlled => warn (tier_name (tier s))
     end);
    ("Grant",
     match tier s with
     | TierOpen => muted "always"
     | _ => if valid (grant s) then success "✓ valid"
            else error "✗ needs grant"
     end);
    ("Expires",
     match tier s with
     | TierOpen => muted "—"
     | _ => formatGrantStatus (valid (grant s)) (expiresAt (grant s))
              (remainingMinutes (grant s))
     end) ].

Definition secrets_list (opts : SecretsOpts) : action B unit :=
  try_catch
    (secretsList ← await ListSecrets listSecrets;
     if flag (opt_json opts) then
       runtime_log (JS.stringify (JS.JArr (map json_of_info secretsList)))
     else
       match secretsList with
       | [] => runtime_log (muted "No secrets registered.")
       | _ =>
           let tableWidth :=
             Z.max 60 (match stdout_columns with
                       | Some c => c
                       | None => 120
                       end - 1) in
           runtime_log
             (JS.trimEnd
                (renderTable {| width := tableWidth;
                                columns := list_columns;
                                rows := map list_row secretsList |}))
       end)
    (fun message =>
       runtime_error ("Failed to list secrets: " +++ message);;
       runtime_exit 1).

Definition secrets_get (name : string) (opts : SecretsOpts) : action B unit :=
  try_catch
    (value ← await (GetSecret name) (getSecret name);
     if negb (JS.truthy_opt value) then
       runtime_error ("Secret '" +++ name +++ "' not found or access denied");;
       runtime_exit 2
     else
       let value := default "" value in
       runtime_log
         (if flag (opt_json opts)
          then JS.stringify (JS.JObj [("name", JS.JStr name);
                                      ("value", JS.JStr value)])
          else value))
    (fun message =>
       runtime_error ("Failed to get secret: " +++ message);;
       runtime_exit 1).

(** [readStdin]: the data of the stream, decoded and trimmed; a stream
    error rejects the promise. *)
Definition readStdin (stdin : Stdin) : action B string :=
  match stream stdin with
  | Data data => mret (JS.trim data)
  | Failure message => throw message
  end.

Definition secrets_set (stdin : Stdin) (name : string) (opts : SecretsOpts)
  : action B unit :=
  try_catch
    (tier ← lift (parseTier (opt_tier opts));
     value ← (if JS.truthy_opt (opt_value opts)
              then mret (default "" (opt_value opts))
              else if negb (isTTY stdin) then readStdin stdin
              else mret "");
     if negb (JS.truthy value) then
       runtime_error "No value provided. Use --value or pipe to stdin.";;
       runtime_exit 1
     else
       await (SetSecret name value tier (opt_description opts))
             (setSecret name value tier (opt_description opts));;
       runtime_log (success "✓" +++ " Secret '" +++ command name
                      +++ "' stored (tier: " +++ tier_name tier +++ ")"))
    (fun message =>
       runtime_error ("Failed to set secret: " +++ message);;
       runtime_exit 1).

Definition secrets_grant (name code : string) (opts : SecretsOpts)
  : action B unit :=
  try_catch
    (let ttlMinutes :=
       if JS.truthy_opt (opt_ttl opts)
       then Some (JS.parseInt10 (default "" (opt_ttl opts)))
       else None in
     if match ttlMinutes with
        | Some n => JS.isNaN n || JS.le_zero n
        | None => false
        end
     then
       runtime_error "TTL must be a positive number";;
       runtime_exit 1
     else
       expires ← await (GrantSecret name code ttlMinutes)
                       (grantSecret name code ttlMinutes);
       runtime_log
         (if flag (opt_json opts)
          then JS.stringify (JS.JObj [("name", JS.JStr name);
                                      ("expiresAt", JS.JNum expires)])
          else success "✓" +++ " Grant created for '" +++ command name
                 +++ "' until " +++ toLocaleString expires))
    (fun message =>
       runtime_error ("Failed to grant access: " +++ message);;
       runtime_exit 1).

Definition secrets_revoke (name : string) : action B unit :=
  try_catch
    (await (RevokeSecret name) (revokeSecret name);;
     runtime_log (success "✓" +++ " Grant revoked for '" +++ command name
                    +++ "'"))
    (fun message =>
       runtime_error ("Failed to revoke grant: " +++ message);;
       runtime_exit 1).

Definition secrets_delete (name : string) (opts : SecretsOpts)
  : action B unit :=
  if negb (flag (opt_confirm opts)) then
    runtime_error "Deletion requires --confirm flag";;
    runtime_exit 1
  else
    try_catch
      (await (DeleteSecret name) (deleteSecret name);;
       runtime_log (success "✓" +++ " Secret '" +++ command name
                      +++ "' deleted"))
      (fun message =>
         runtime_error ("Failed to delete secret: " +++ message);;
         runtime_exit 1).

End Handlers.

End Cli.

(** ** The broker behind the operations *)

Module Model.

Import Secrets.

(** Modelled from the spec: the Crypto Engine, which is not part of the
    sources at hand.  [seal] encrypts a value under a nonce, [unseal]
    decrypts or fails, [verifyTotp code secret now] checks a one-time
    code, [provisioningUri] builds the otpauth URI of a shared secret. *)
Class Crypto : Type := {
  sealed : Type;
  seal : N -> string -> sealed;
  unseal : sealed -> option string;
  verifyTotp : string -> string -> Z -> bool;
  provisioningUri : string -> string
}.

Section Broker.

Context {crypto : Crypto}.

(** Modelled from the spec: the Secret record of the registry
    (section 3), stored under its name. *)
Record Secret : Type := {
  tier : SecretTier;
  description : option string;
  sealedValue : sealed;
  createdAt : Z;
  updatedAt : Z
}.

(** Modelled from the spec: a Grant (section 3). *)
Record Grant : Type := {
  secretName : string;
  issuedAt : Z;
  expiresAt : Z
}.

(** Modelled from the spec: an Audit Entry (section 3). *)
Inductive AuditAction : Type :=
| ASet | AGet | AGrant | ARevoke | ADelete | ADenied.

Record AuditEntry : Type := {
  timestamp : Z;
  action : AuditAction;
  subject : string;
  success : bool;
  reason : option string
}.

(** Modelled from the spec: the persisted state of the broker, i.e. the
    registry, the grants, the sealed TOTP enrollment and the append-only
    audit log, with the next unused nonce and the current time in
    milliseconds. *)
Record state : Type := {
  registry : gmap string Secret;
  grants : list Grant;
  enrollment : option sealed;
  audit : list AuditEntry;
  nonce : N;
  clock : Z
}.

Definition initial : state :=
  {| registry := ∅; grants := []; enrollment := None; audit := [];
     nonce := 0%N; clock := 0 |}.

Definition log_audit (a : AuditAction) (subject : string) (ok : bool)
  (reason : option string) (s : state) : state :=
  {| registry := registry s; grants := grants s; enrollment := enrollment s;
     audit := audit s ++ [{| timestamp := clock s; action := a;
                             subject := subject; success := ok;
                             reason := reason |}];
     nonce := nonce s; clock := clock s |}.

Definition grant_is_for (name : string) (g : Grant) : bool :=
  String.eqb (secretName g) name.

Definition grants_of (name : string) (s : state) : list Grant :=
  List.filter (grant_is_for name) (grants s).

Definition without_grants_of (name : string) (gs : list Grant) : list Grant :=
  List.filter (fun g => negb (grant_is_for name g)) gs.

(** Modelled from the spec: [isValid] of the Grant Manager (4.2), a pure
    read; a grant is valid while [now < expiresAt]. *)
Definition isValid (name : string) (s : state) : GrantStatus :=
  match grants_of name s with
  | g :: _ =>
      let live := clock s <? expiresAt g in
      {| Secrets.valid := live;
         Secrets.expiresAt := Some (expiresAt g);
         remainingMinutes :=
           if live then Some ((expiresAt g - clock s) / 60000) else None |}
  | [] =>
      {| Secrets.valid := false; Secrets.expiresAt := None;
         remainingMinutes := None |}
  end.

(** Modelled from the spec: [set] of the registry (4.1): seal, upsert,
    update [updatedAt], write an audit entry. *)
Definition set (name value : string) (t : SecretTier) (d : option string)
  (s : state) : result unit * state :=
  let created :=
    match registry s !! name with
    | Some old => createdAt old
    | None => clock s
    end in
  let record :=
    {| tier := t; description := d; sealedValue := seal (nonce s) value;
       createdAt := created; updatedAt := clock s |} in
  (Return tt,
   log_audit ASet name true None
     {| registry := <[name := record]> (registry s); grants := grants s;
        enrollment := enrollment s; audit := audit s;
        nonce := N.succ (nonce s); clock := clock s |}).

(** Modelled from the spec: [get] of the registry (4.1), through the
    facade's order tier check, grant check, unseal, audit write.  An
    unknown name and a denied access give the same absent value. *)
Definition get (name : string) (s : state) : result (option string) * state :=
  match registry s !! name with
  | None => (Return None, log_audit ADenied name false (Some "not found") s)
  | Some record =>
      let allowed :=
        match tier record with
        | TierOpen => true
        | _ => Secrets.valid (isValid name s)
        end in
      if allowed then
        match unseal (sealedValue record) with
        | Some value => (Return (Some value), log_audit AGet name true None s)
        | None => (Raise "CryptoError: cannot unseal the value", s)
        end
      else (Return None, log_audit ADenied name false (Some "no valid grant") s)
  end.

(** Modelled from the spec: [list] of the registry (4.1). *)
Definition list (s : state) : result (list SecretInfo) * state :=
  (Return (map (fun entry : string * Secret =>
                  {| name := fst entry; Secrets.tier := tier (snd entry);
                     grant := isValid (fst entry) s |})
               (map_to_list (registry s))),
   s).

(** Modelled from the spec: [delete] of the registry (4.1). *)
Definition delete (name : string) (s : state) : result unit * state :=
  match registry s !! name with
  | None => (Raise "NotFound: no such secret", s)
  | Some _ =>
      (Return tt,
       log_audit ADelete name true None
         {| registry := base.delete name (registry s);
            grants := without_grants_of name (grants s);
            enrollment := enrollment s; audit := audit s;
            nonce := nonce s; clock := clock s |})
  end.

Definition code_verifies (code : string) (s : state) : bool :=
  match enrollment s with
  | Some e =>
      match unseal e with
      | Some shared => verifyTotp code shared (clock s)
      | None => false
      end
  | None => false
  end.

(** The default TTL in minutes when none is given. *)
Definition defaultTtlMinutes : Z := 60.

(** Modelled from the spec: [issue] of the Grant Manager (4.2).  The
    new grant replaces any grant of the same secret. *)
Definition issue (name code : string) (ttlMinutes : option Z) (s : state)
  : result Z * state :=
  match registry s !! name with
  | None => (Raise "NotFound: no such secret", s)
  | Some record =>
      if negb (code_verifies code s) then (Raise "InvalidCode", s)
      else
        match tier record with
        | TierOpen => (Raise "InvalidTier: open secrets take no grant", s)
        | _ =>
            let expires :=
              clock s + default defaultTtlMinutes ttlMinutes * 60000 in
            (Return expires,
             log_audit AGrant name true None
               {| registry := registry s;
                  grants := {| secretName := name; issuedAt := clock s;
                               expiresAt := expires |}
                            :: without_grants_of name (grants s);
                  enrollment := enrollment s; audit := audit s;
                  nonce := nonce s; clock := clock s |})
        end
  end.

(** Modelled from the spec: [revoke] of the Grant Manager (4.2). *)
Definition revoke (name : string) (s : state) : result unit * state :=
  (Return tt,
   log_audit ARevoke name true None
     {| registry := registry s;
        grants := without_grants_of name (grants s);
        enrollment := enrollment s; audit := audit s;
        nonce := nonce s; clock := clock s |}).

(** Modelled from the spec: [setupTotp] (4.3); [shared] is the freshly
    drawn base32 secret. *)
Definition setupTotp (shared : string) (s : state)
  : result (string * string) * state :=
  (Return (shared, provisioningUri shared),
   {| registry := registry s; grants := grants s;
      enrollment := Some (seal (nonce s) shared); audit := audit s;
      nonce := N.succ (nonce s); clock := clock s |}).

(** Time passing between two invocations. *)
Definition advance (dt : Z) (s : state) : state :=
  {| registry := registry s; grants := grants s; enrollment := enrollment s;
     audit := audit s; nonce := nonce s; clock := clock s + Z.max 0 dt |}.

(** The TTL that the CLI forwards is a JavaScript number; the Grant
    Manager takes a positive integer number of minutes. *)
Definition grantSecret (name code : string) (ttl : option JS.number)
  (s : state) : result Z * state :=
  match ttl with
  | None => issue name code None s
  | Some (JS.Num z) =>
      if 0 <? z then issue name code (Some z) s
      else (Raise "ValidationError: TTL", s)
  | Some _ => (Raise "ValidationError: TTL", s)
  end.

#[export] Instance broker : Broker state := {|
  listSecrets := list;
  getSecret := get;
  setSecret := set;
  Secrets.grantSecret := grantSecret;
  revokeSecret := revoke;
  deleteSecret := delete
|}.

(** An invocation of the broker, and the state after a sequence of
    invocations. *)
Inductive op : Type :=
| OpSet (name value : string) (t : SecretTier) (d : option string)
| OpGet (name : string)
| OpList
| OpDelete (name : string)
| OpGrant (name code : string) (ttlMinutes : option Z)
| OpRevoke (name : string)
| OpSetupTotp (shared : string)
| OpAdvance (dt : Z).

Definition step (s : state) (o : op) : state :=
  match o with
  | OpSet n v t d => snd (set n v t d s)
  | OpGet n => snd (get n s)
  | OpList => snd (list s)
  | OpDelete n => snd (delete n s)
  | OpGrant n c ttl => snd (issue n c ttl s)
  | OpRevoke n => snd (revoke n s)
  | OpSetupTotp k => snd (setupTotp k s)
  | OpAdvance dt => advance dt s
  end.

Definition run (ops : Datatypes.list op) (s : state) : state :=
  fold_left step ops s.

(** Whether an invocation stores or deletes the secret [name]. *)
Definition rewrites (name : string) (o : op) : bool :=
  match o with
  | OpSet n _ _ _ => String.eqb n name
  | OpDelete n => String.eqb n name
  | _ => false
  end.

(** No secret has two grants. *)
Definition one_grant_each (s : state) : Prop :=
  forall name, (length (grants_of name s) <= 1)%nat.

(** The secret [name] is stored as an open secret holding [value]. *)
Definition holds_open (name value : string) (s : state) : Prop :=
  exists record,
    registry s !! name = Some record
    /\ tier record = TierOpen
    /\ unseal (sealedValue record) = Some value.

End Broker.

End Model.

(** ** Concrete collaborators, to run the handlers on examples *)

Module Fixture.

Import Secrets Terminal Cli.

(** A crypto engine that stores the value next to its nonce and accepts
    the one-time code [123456]. *)
Definition crypto : Model.Crypto := {|
  Model.sealed := N * string;
  Model.seal := fun n v => (n, v);
  Model.unseal := fun c => Some (snd c);
  Model.verifyTotp := fun code _ _ => String.eqb code "123456";
  Model.provisioningUri := fun k => "otpauth://totp/broker?secret=" +++ k
|}.

(** A terminal without colours, whose tables have one line per row. *)
Definition env : Env := {|
  muted := fun s => s;
  error := fun s => s;
  success := fun s => s;
  warn := fun s => s;
  command := fun s => s;
  renderTable := fun t =>
    String.concat JS.newline
      (map (fun row => String.concat " | " (map snd row)) (rows t));
  stdout_columns := Some 80;
  Date_now := 0;
  toLocaleString := JS.show_int
|}.

Definition state : Type := @Model.state crypto.

Definition no_opts : SecretsOpts :=
  {| opt_tier := None; opt_description := None; opt_value := None;
     opt_ttl := None; opt_confirm := None; opt_json := None |}.

Definition with_tier (t : string) (value : string) : SecretsOpts :=
  {| opt_tier := Some t; opt_description := None; opt_value := Some value;
     opt_ttl := None; opt_confirm := None; opt_json := None |}.

Definition with_ttl (ttl : string) : SecretsOpts :=
  {| opt_tier := None; opt_description := None; opt_value := None;
     opt_ttl := Some ttl; opt_confirm := None; opt_json := None |}.

Definition with_json : SecretsOpts :=
  {| opt_tier := None; opt_description := None; opt_value := None;
     opt_ttl := None; opt_confirm := None; opt_json := Some true |}.

Definition terminal_stdin : Stdin := {| isTTY := true; stream := Data "" |}.

Definition piped (data : string) : Stdin :=
  {| isTTY := false; stream := Data data |}.

(** A broker with an enrolled TOTP secret and one restricted secret. *)
Definition enrolled : state :=
  Model.run [Model.OpSetupTotp "JBSWY3DPEHPK3PXP";
             Model.OpSet "db-pass" "s3cr3t" TierRestricted None]
    Model.initial.

(** The same broker with another value stored under the same name. *)
Definition enrolled' : state :=
  Model.run [Model.OpSetupTotp "JBSWY3DPEHPK3PXP";
             Model.OpSet "db-pass" "hunter2" TierRestricted None]
    Model.initial.

(** A broker with one open secret. *)
Definition readable : state :=
  Model.run [Model.OpSet "motd" "hello" TierOpen None] Model.initial.

(** A broker whose state cannot be read: every operation throws. *)
Definition offline : Broker unit := {|
  listSecrets := fun b => (Raise "StorageError: state unavailable", b);
  getSecret := fun _ b => (Raise "StorageError: state unavailable", b);
  setSecret := fun _ _ _ _ b => (Raise "StorageError: state unavailable", b);
  grantSecret := fun _ _ _ b => (Raise "StorageError: state unavailable", b);
  revokeSecret := fun _ b => (Raise "StorageError: state unavailable", b);
  deleteSecret := fun _ b => (Raise "StorageError: state unavailable", b)
|}.

End Fixture.

(** ** The [setup-totp] and [info] handlers *)

Module Admin.

Import Secrets Terminal Cli.

(** Modelled from the spec: [setupTotp] of ../secrets/index.js, which
    gives the new shared secret and its provisioning URI,
    [{secret, uri}]. *)
Class TotpBroker (B : Type) : Type := {
  setupTotp : B -> result (string * string) * B
}.

(** The configuration that [loadConfig] gives (../config/config.js), as
    far as the [info] handler reads it; every level may be absent. *)
Record BrokerConfig : Type := {
  enabled : option bool;
  interceptTools : option (list string)
}.

Record CredentialsConfig : Type := {
  mode : option string;
  broker_config : option BrokerConfig
}.

Record SecurityConfig : Type := {
  credentials : option CredentialsConfig
}.

Record SecretsConfig : Type := {
  backend : option string
}.

Record Config : Type := {
  security : option SecurityConfig;
  secrets : option SecretsConfig
}.

(** What the two handlers take besides the broker and the terminal:
    [theme.heading], the rendering that [qrcode.generate(text, {small:
    true}, cb)] passes to its callback, [loadConfig()], the length of
    the array that [getRegistry()] gives (both may throw), [STATE_DIR]
    and [path.join]. *)
Class Host : Type := {
  heading : string -> string;
  qrcode_generate : string -> string;
  loadConfig : result Config;
  getRegistry_length : result Z;
  STATE_DIR : string;
  path_join : list string -> string
}.

Section Handlers.

Context {B : Type} {totp : TotpBroker B} {env : Env} {host : Host}.

(** [await setupTotp()]: run the operation on the broker's state; a
    rejected promise is a thrown error.  ([calls] records the operations
    on secrets and grants only.) *)
Definition await_setup {A} (op : B -> result A * B) : action B A :=
  fun w =>
    let '(r, b') := op (broker w) in
    (match r with
     | Return a => Normal a
     | Raise e => Thrown e
     end,
     {| broker := b'; calls := calls w; console := console w |}).

Definition secrets_setup_totp (opts : SecretsOpts) : action B unit :=
  try_catch
    (result ← await_setup setupTotp;
     if flag (opt_json opts) then
       runtime_log (JS.stringify (JS.JObj [("secret", JS.JStr (fst result));
                                           ("uri", JS.JStr (snd result))]))
     else
       runtime_log (heading "TOTP Setup");;
       runtime_log EmptyString;;
       let qrOutput := qrcode_generate (snd result) in
       runtime_log qrOutput;;
       runtime_log (success "Secret:" +++ " " +++ fst result);;
       runtime_log (success "URI:" +++ "    " +++ snd result);;
       runtime_log EmptyString;;
       runtime_log
         (muted ("Scan the QR code above, or enter the secret manually "
                   +++ "in your authenticator app.")))
    (fun message =>
       runtime_error ("Failed to setup TOTP: " +++ message);;
       runtime_exit 1).

(** [cfg.security?.credentials], and below it the broker's part. *)
Definition credentials_of (cfg : Config) : option CredentialsConfig :=
  match security cfg with
  | Some s => credentials s
  | None => None
  end.

Definition broker_of (cfg : Config) : option BrokerConfig :=
  match credentials_of cfg with
  | Some c => broker_config c
  | None => None
  end.

Definition secrets_info (opts : SecretsOpts) : action B unit :=
  try_catch
    (cfg ← lift loadConfig;
     registry_length ← lift getRegistry_length;
     let auditLogPath := path_join [STATE_DIR; "audit"; "credentials.jsonl"] in
     let mode :=
       default "legacy"
         (match credentials_of cfg with
          | Some c => mode c
          | None => None
          end) in
     let brokerEnabled :=
       default false
         (match broker_of cfg with
          | Some b => enabled b
          | None => None
          end) in
     let backendType :=
       default "keychain"
         (match secrets cfg with
          | Some s => backend s
          | None => None
          end) in
     let interceptTools :=
       default []
         (match broker_of cfg with
          | Some b => interceptTools b
          | None => None
          end) in
     if flag (opt_json opts) then
       runtime_log
         (JS.stringify
            (JS.JObj
               [("securityMode", JS.JStr mode);
                ("backendType", JS.JStr backendType);
                ("broker",
                 JS.JObj
                   [("enabled", JS.JBool brokerEnabled);
                    ("interceptTools",
                     match interceptTools with
                     | [] => JS.JStr "all"
                     | _ => JS.JArr (map JS.JStr interceptTools)
                     end)]);
                ("secretsCount", JS.JNum registry_length);
                ("auditLog", JS.JStr auditLogPath)]))
     else
       runtime_log (heading "Credential Broker Status");;
       runtime_log EmptyString;;
       runtime_log (success "Security Mode:" +++ "    " +++ mode);;
       runtime_log (success "Backend:" +++ "          " +++ backendType);;
       runtime_log (success "Broker:" +++ "           "
                      +++ (if brokerEnabled then success "enabled"
                           else muted "disabled"));;
       (if brokerEnabled then
          match interceptTools with
          | [] => runtime_log (success "Intercept Tools:" +++ "  "
                                 +++ warn "all tools")
          | _ => runtime_log (success "Intercept Tools:" +++ "  "
                                +++ String.concat ", " interceptTools)
          end
        else mret tt);;
       runtime_log (success "Secrets Count:" +++ "    "
                      +++ JS.show_int registry_length);;
       runtime_log (success "Audit Log:" +++ "        "
                      +++ muted auditLogPath))
    (fun message =>
       runtime_error ("Failed to get info: " +++ message);;
       runtime_exit 1).

End Handlers.

(** Every line of a console is a [Log] line. *)
Definition only_logs (lines : list event) : Prop :=
  Forall (fun e => exists text, e = Log text) lines.

(** A run that reports its outcome: it returns normally after writing
    [Log] lines only, at least one, or it exits with [code] after
    writing one [Error] line and nothing else. *)
Definition reports {B : Type} (r : completion unit * world B) (codes : list Z)
  : Prop :=
  (fst r = Normal tt /\ console (snd r) <> [] /\ only_logs (console (snd r)))
  \/ (exists text code,
        console (snd r) = [Error text] /\ fst r = Exited code
        /\ In code codes).

(** Two option records that differ at most in [--json]. *)
Definition same_but_json (o1 o2 : SecretsOpts) : Prop :=
  opt_tier o1 = opt_tier o2
  /\ opt_description o1 = opt_description o2
  /\ opt_value o1 = opt_value o2
  /\ opt_ttl o1 = opt_ttl o2
  /\ opt_confirm o1 = opt_confirm o2.

(** The text of an [Error] line; [None] for a [Log] line. *)
Definition error_text (e : event) : option string :=
  match e with
  | Log _ => None
  | Error text => Some text
  end.

(** What a run leaves besides the texts of its [Log] lines: how it
    ended, the broker operations it invoked, the broker's state, and
    which lines are errors with their texts. *)
Definition outcome {B A : Type} (r : completion A * world B)
  : completion A * list call * B * list (option string) :=
  (fst r, calls (snd r), broker (snd r), map error_text (console (snd r))).

(** The broker operations that a run invoked and the broker's state
    that it leaves. *)
Definition effects {B A : Type} (r : completion A * world B)
  : list call * B :=
  (calls (snd r), broker (snd r)).

(** A text made of decimal digits only. *)
Definition all_digits (s : string) : bool :=
  forallb (JS.byte_in 48 57) (list_ascii_of_string s).

(** A concrete host, to run the two handlers on examples: no colours, a
    QR code that is the text between brackets, an empty configuration
    and three registered secrets. *)
Definition demo_totp : TotpBroker unit := {|
  setupTotp := fun b =>
    (Return ("JBSWY3DPEHPK3PXP",
             "otpauth://totp/broker?secret=JBSWY3DPEHPK3PXP"), b)
|}.

Definition demo_host : Host := {|
  heading := fun s => s;
  qrcode_generate := fun text => "[" +++ text +++ "]";
  loadConfig := Return {| security := None; secrets := None |};
  getRegistry_length := Return 3;
  STATE_DIR := "/home/u/.openclaw";
  path_join := String.concat "/"
|}.

(** A host whose configuration cannot be loaded. *)
Definition unreadable_host : Host := {|
  heading := fun s => s;
  qrcode_generate := fun text => "[" +++ text +++ "]";
  loadConfig := Raise "config: invalid JSON";
  getRegistry_length := Return 3;
  STATE_DIR := "/home/u/.openclaw";
  path_join := String.concat "/"
|}.

End Admin.

(** * Properties of the handlers *)

(** Unfold a handler down to the broker operation it awaits. *)
Ltac run_handler :=
  unfold Cli.secrets_list, Cli.secrets_get, Cli.secrets_set,
    Cli.secrets_grant, Cli.secrets_revoke, Cli.secrets_delete, Cli.try_catch,
    Cli.observed, Cli.start, Cli.await, Cli.runtime_log, Cli.runtime_error,
    Cli.runtime_exit, Cli.readStdin, Cli.lift, Cli.throw,
    mbind, mret, Cli.action_bind, Cli.action_ret;
  cbn [Cli.broker Cli.calls Cli.console fst snd app].

Section HandlerFacts.

Import Secrets Terminal Cli.

Context {B : Type} {ops : Broker B} {env : Env}.

(** C10.  Without [--confirm] the [delete] handler writes its error and
    exits with code 1; [deleteSecret] is not invoked and the broker's
    state is unchanged.  Hence every run that invokes [deleteSecret]
    was given the flag. *)
Theorem secrets_delete_needs_confirm (name : string) (opts : SecretsOpts)
    (b : B) :
  let r := secrets_delete name opts (start b) in
  (flag (opt_confirm opts) = false ->
   calls (snd r) = [] /\ broker (snd r) = b
   /\ observed r = ([Error "Deletion requires --confirm flag"], Exited 1))
  /\ (forall n, In (DeleteSecret n) (calls (snd r)) ->
      flag (opt_confirm opts) = true).
Proof.
  assert (Hoff : flag (opt_confirm opts) = false ->
                 secrets_delete name opts (start b)
                 = (Exited 1,
                    {| broker := b; calls := [];
                       console :=
                         [Error "Deletion requires --confirm flag"] |})).
  { intros Hc. run_handler. rewrite Hc. reflexivity. }
  cbv zeta. split.
  - intros Hc. rewrite (Hoff Hc). repeat split.
  - intros n Hin. destruct (flag (opt_confirm opts)) eqn:Hc; [reflexivity|].
    rewrite (Hoff eq_refl) in Hin. destruct Hin.
Qed.

(** The [get] handler on an absent value, whatever made it absent. *)
Lemma secrets_get_absent (name : string) (opts : SecretsOpts) (b : B)
    (v : option string) :
  fst (getSecret name b) = Return v ->
  JS.truthy_opt v = false ->
  secrets_get name opts (start b)
  = (Exited 2,
     {| broker := snd (getSecret name b); calls := [GetSecret name];
        console := [Error ("Secret '" +++ name
                             +++ "' not found or access denied")] |}).
Proof.
  intros Hget Hv. run_handler.
  destruct (getSecret name b) as [res b']. cbn in Hget. subst res.
  cbn. rewrite Hv. reflexivity.
Qed.

(** C1.  When [getSecret] gives an absent value, the [get] handler
    writes one error line that depends on the name alone and exits with
    code 2; two brokers (or two states of one broker) that both give an
    absent value, for whatever reason, are observed alike. *)
Theorem secrets_get_absent_uniform (name : string) (opts : SecretsOpts)
    (b1 b2 : B) :
  fst (getSecret name b1) = Return None ->
  fst (getSecret name b2) = Return None ->
  observed (secrets_get name opts (start b1))
  = ([Error ("Secret '" +++ name +++ "' not found or access denied")],
     Exited 2)
  /\ observed (secrets_get name opts (start b1))
     = observed (secrets_get name opts (start b2)).
Proof.
  intros H1 H2.
  rewrite (secrets_get_absent name opts b1 None H1 eq_refl).
  rewrite (secrets_get_absent name opts b2 None H2 eq_refl).
  split; reflexivity.
Qed.

(** C9.  The [get] handler has three outcomes, told apart by how the
    run ends.  On a present value, one for which [!value] is false, it
    prints the value (as it is, or as a JSON object with [--json]) and
    returns normally; on an absent value, one for which [!value] holds
    ([undefined], or the empty string, which [secrets set] never
    stores), it exits with code 2; when [getSecret] throws it exits with
    code 1.  Conversely a normal return, an exit with code 2 and an exit
    with code 1 each arise from that outcome of [getSecret] only. *)
Theorem secrets_get_outcomes (name : string) (opts : SecretsOpts) (b : B) :
  let r := secrets_get name opts (start b) in
  (forall v, fst (getSecret name b) = Return (Some v) ->
     JS.truthy_opt (Some v) = true ->
     observed r
     = ([Log (if flag (opt_json opts)
              then JS.stringify (JS.JObj [("name", JS.JStr name);
                                          ("value", JS.JStr v)])
              else v)],
        Normal tt))
  /\ (forall v, fst (getSecret name b) = Return v ->
        JS.truthy_opt v = false ->
        observed r
        = ([Error ("Secret '" +++ name +++ "' not found or access denied")],
           Exited 2))
  /\ (forall e, fst (getSecret name b) = Raise e ->
        observed r = ([Error ("Failed to get secret: " +++ e)], Exited 1))
  /\ (fst r = Normal tt <->
      exists v, fst (getSecret name b) = Return (Some v)
                /\ JS.truthy_opt (Some v) = true)
  /\ (fst r = Exited 2 <->
      exists v, fst (getSecret name b) = Return v
                /\ JS.truthy_opt v = false)
  /\ (fst r = Exited 1 <-> exists e, fst (getSecret name b) = Raise e).
Proof.
  cbv zeta.
  assert (Hpresent : forall v,
    fst (getSecret name b) = Return (Some v) ->
    JS.truthy_opt (Some v) = true ->
    observed (secrets_get name opts (start b))
    = ([Log (if flag (opt_json opts)
             then JS.stringify (JS.JObj [("name", JS.JStr name);
                                         ("value", JS.JStr v)])
             else v)],
       Normal tt)).
  { intros v Hget Hv. run_handler.
    destruct (getSecret name b) as [res b']. cbn in Hget. subst res.
    cbn in Hv |- *. rewrite Hv. cbn.
    destruct (flag (opt_json opts)); reflexivity. }
  assert (Habsent : forall v,
    fst (getSecret name b) = Return v -> JS.truthy_opt v = false ->
    observed (secrets_get name opts (start b))
    = ([Error ("Secret '" +++ name +++ "' not found or access denied")],
       Exited 2)).
  { intros v Hget Hv.
    rewrite (secrets_get_absent name opts b v Hget Hv). reflexivity. }
  assert (Hthrown : forall e,
    fst (getSecret name b) = Raise e ->
    observed (secrets_get name opts (start b))
    = ([Error ("Failed to get secret: " +++ e)], Exited 1)).
  { intros e Hget. run_handler.
    destruct (getSecret name b) as [res b']. cbn in Hget. subst res.
    reflexivity. }
  split; [exact Hpresent|]. split; [exact Habsent|]. split; [exact Hthrown|].
  assert (Hend : forall x,
    snd (observed (secrets_get name opts (start b))) = x ->
    fst (secrets_get name opts (start b)) = x)
    by (intros x Hx; exact Hx).
  destruct (fst (getSecret name b)) as [[v|]|e] eqn:Hget;
    [destruct (JS.truthy_opt (Some v)) eqn:Hv;
     [pose proof (Hpresent v eq_refl Hv) as Hr
     |pose proof (Habsent (Some v) eq_refl Hv) as Hr]
    |pose proof (Habsent None eq_refl eq_refl) as Hr
    |pose proof (Hthrown e eq_refl) as Hr];
    rewrite (Hend _ (f_equal snd Hr));
    repeat split; intros Hx;
    first
      [ reflexivity
      | discriminate Hx
      | destruct Hx as (x & Hx & Hy);
        first [discriminate Hx | injection Hx as <-; congruence]
      | destruct Hx as (x & Hx); discriminate Hx
      | eexists; split; [reflexivity|assumption || reflexivity]
      | eexists; reflexivity ].
Qed.

(** [parseTier] on a non-empty option value: the lowercased text decides. *)
Lemma parseTier_lowercase (t : string) (tier : SecretTier) :
  t <> "" ->
  parseTier (Some t) = Return tier <-> JS.toLowerCase t = tier_name tier.
Proof.
  intros Ht. unfold parseTier.
  destruct t as [|c t]; [congruence|]. cbn [JS.truthy negb].
  set (normalized := JS.toLowerCase (String c t)).
  destruct (String.eqb_spec normalized "open") as [E1|E1];
    [|destruct (String.eqb_spec normalized "controlled") as [E2|E2];
      [|destruct (String.eqb_spec normalized "restricted") as [E3|E3]]];
    split; intros H0; destruct tier; cbn in *; congruence.
Qed.

Lemma parseTier_rejects (t : string) :
  t <> "" ->
  (forall tier, JS.toLowerCase t <> tier_name tier) ->
  parseTier (Some t)
  = Raise ("Invalid tier: " +++ t
             +++ ". Must be open, controlled, or restricted.").
Proof.
  intros Ht Hno. unfold parseTier.
  destruct t as [|c t]; [congruence|]. cbn [JS.truthy negb].
  pose proof (Hno TierOpen) as H1. pose proof (Hno TierControlled) as H2.
  pose proof (Hno TierRestricted) as H3. cbn in H1, H2, H3.
  apply String.eqb_neq in H1, H2, H3. cbn [JS.toLowerCase].
  rewrite H1, H2, H3. reflexivity.
Qed.

(** The [set] handler once the tier is parsed and a value is at hand. *)
Lemma secrets_set_stores (stdin : Stdin) (name value : string)
    (opts : SecretsOpts) (tier : SecretTier) (b : B) :
  parseTier (opt_tier opts) = Return tier ->
  provides stdin opts value -> value <> "" ->
  calls (snd (secrets_set stdin name opts (start b)))
  = [SetSecret name value tier (opt_description opts)].
Proof.
  intros Ht Hv Hne. run_handler. rewrite Ht.
  destruct value as [|c value]; [congruence|].
  destruct Hv as [Hv | (Hv & Htty & data & Hs & Hd)].
  - rewrite Hv. cbn.
    destruct (setSecret _ _ _ _ b) as [[[]|e] b']; reflexivity.
  - rewrite Hv, Htty, Hs, Hd. cbn.
    destruct (setSecret _ _ _ _ b) as [[[]|e] b']; reflexivity.
Qed.

(** C2, as the code has it.  A non-empty tier option is accepted exactly
    when its lowercased form is one of [open], [controlled] and
    [restricted]; any other non-empty tier makes the [set] handler write
    the error and exit with code 1, with [setSecret] not invoked and the
    broker's state unchanged. *)
Theorem secrets_set_tier_checked (t : string) :
  t <> "" ->
  (forall tier,
     parseTier (Some t) = Return tier <-> JS.toLowerCase t = tier_name tier)
  /\ ((forall tier, JS.toLowerCase t <> tier_name tier) ->
      forall stdin name opts (b : B),
        opt_tier opts = Some t ->
        let r := secrets_set stdin name opts (start b) in
        calls (snd r) = [] /\ broker (snd r) = b
        /\ observed r
           = ([Error ("Failed to set secret: Invalid tier: " +++ t
                        +++ ". Must be open, controlled, or restricted.")],
              Exited 1)).
Proof.
  intros Ht. split.
  - intros tier. apply parseTier_lowercase, Ht.
  - intros Hno stdin name opts b Hopt. cbv zeta. run_handler.
    rewrite Hopt, (parseTier_rejects t Ht Hno). cbn. repeat split.
Qed.

(** The whole run of the [set] handler once the tier is parsed and a
    value is at hand: the one call of [setSecret], the state it leaves,
    and the line that tells how it went. *)
Lemma secrets_set_run (stdin : Stdin) (name value : string)
    (opts : SecretsOpts) (tier : SecretTier) (b : B) :
  parseTier (opt_tier opts) = Return tier ->
  provides stdin opts value -> value <> "" ->
  let stored := setSecret name value tier (opt_description opts) b in
  secrets_set stdin name opts (start b)
  = match fst stored with
    | Return _ =>
        (Normal tt,
         {| broker := snd stored;
            calls := [SetSecret name value tier (opt_description opts)];
            console := [Log (success "✓" +++ " Secret '" +++ command name
                               +++ "' stored (tier: " +++ tier_name tier
                               +++ ")")] |})
    | Raise e =>
        (Exited 1,
         {| broker := snd stored;
            calls := [SetSecret name value tier (opt_description opts)];
            console := [Error ("Failed to set secret: " +++ e)] |})
    end.
Proof.
  intros Ht Hv Hne. cbv zeta. run_handler. rewrite Ht.
  destruct value as [|c value]; [congruence|].
  destruct Hv as [Hv | (Hv & Htty & data & Hs & Hd)].
  - rewrite Hv. cbn.
    destruct (setSecret _ _ _ _ b) as [[[]|e] b']; reflexivity.
  - rewrite Hv, Htty, Hs, Hd. cbn.
    destruct (setSecret _ _ _ _ b) as [[[]|e] b']; reflexivity.
Qed.

(** C8.  Without a tier option [parseTier] gives [controlled] and the
    [set] handler, given a non-empty value, stores the secret with that
    tier: it invokes [setSecret] once, with tier [controlled], the
    broker's state afterwards is the one that this call leaves, and
    when the call returns the handler logs the line that names the tier
    and returns normally.  A tier option whose lowercased form is a
    tier name is accepted whatever its case, and the secret is stored
    likewise with the tier of the lowercased form. *)
Theorem secrets_set_default_tier (stdin : Stdin) (name value : string)
    (opts : SecretsOpts) (b : B) :
  provides stdin opts value -> value <> "" ->
  let r := secrets_set stdin name opts (start b) in
  let stored_as tier :=
    calls (snd r) = [SetSecret name value tier (opt_description opts)]
    /\ broker (snd r)
       = snd (setSecret name value tier (opt_description opts) b)
    /\ (forall u,
          fst (setSecret name value tier (opt_description opts) b)
          = Return u ->
          observed r
          = ([Log (success "✓" +++ " Secret '" +++ command name
                     +++ "' stored (tier: " +++ tier_name tier +++ ")")],
             Normal tt)) in
  parseTier None = Return TierControlled
  /\ (opt_tier opts = None ->
      calls (snd r)
      = [SetSecret name value TierControlled (opt_description opts)])
  /\ (forall t tier,
        opt_tier opts = Some t -> JS.toLowerCase t = tier_name tier ->
        parseTier (Some t) = Return tier
        /\ calls (snd r)
           = [SetSecret name value tier (opt_description opts)])
  /\ (opt_tier opts = None -> stored_as TierControlled)
  /\ (forall t tier,
        opt_tier opts = Some t -> JS.toLowerCase t = tier_name tier ->
        stored_as tier).
Proof.
  intros Hv Hne r stored_as.
  assert (Hrun : forall tier,
    parseTier (opt_tier opts) = Return tier -> stored_as tier).
  { intros tier Ht. subst stored_as r. cbv beta.
    rewrite (secrets_set_run stdin name value opts tier b Ht Hv Hne).
    destruct (setSecret name value tier (opt_description opts) b)
      as [[u|e] b']; cbn; repeat split; intros; discriminate. }
  assert (Hlow : forall t tier,
    opt_tier opts = Some t -> JS.toLowerCase t = tier_name tier ->
    parseTier (opt_tier opts) = Return tier).
  { intros t tier Hsome Hl. rewrite Hsome.
    apply parseTier_lowercase; [|assumption].
    intros ->. destruct tier; discriminate. }
  assert (Hnone : opt_tier opts = None ->
                  parseTier (opt_tier opts) = Return TierControlled)
    by (intros ->; reflexivity).
  split; [reflexivity|]. split; [|split; [|split]].
  - intros Ho. apply (Hrun TierControlled (Hnone Ho)).
  - intros t tier Hsome Hl. split.
    + rewrite <- Hsome. exact (Hlow t tier Hsome Hl).
    + apply (Hrun tier (Hlow t tier Hsome Hl)).
  - intros Ho. exact (Hrun TierControlled (Hnone Ho)).
  - intros t tier Hsome Hl. exact (Hrun tier (Hlow t tier Hsome Hl)).
Qed.

(** C5.  With no [--value] and nothing but white space on the standard
    input (or a terminal as standard input), the [set] handler writes
    one error line and exits with code 1; [setSecret] is not invoked
    and the broker's state is unchanged.  The line is the missing-value
    message whenever the tier option parses. *)
Theorem secrets_set_needs_value (stdin : Stdin) (name : string)
    (opts : SecretsOpts) (b : B) :
  JS.truthy_opt (opt_value opts) = false ->
  (isTTY stdin = true
   \/ exists data, stream stdin = Data data /\ JS.trim data = "") ->
  let r := secrets_set stdin name opts (start b) in
  calls (snd r) = [] /\ broker (snd r) = b
  /\ exists message,
       observed r = ([Error message], Exited 1)
       /\ (forall tier, parseTier (opt_tier opts) = Return tier ->
           message = "No value provided. Use --value or pipe to stdin.").
Proof.
  intros Hv Hin. cbv zeta. run_handler. rewrite Hv.
  assert (Hread :
    (isTTY stdin = true)
    \/ (isTTY stdin = false /\ exists data,
          stream stdin = Data data /\ JS.trim data = "")).
  { destruct (isTTY stdin); [left; reflexivity|right].
    destruct Hin as [Htty | Hdata]; [discriminate|]. split; [reflexivity|].
    exact Hdata. }
  destruct Hread as [Htty | (Htty & data & Hs & Hd)]; rewrite Htty;
    [|rewrite Hs, Hd];
    (destruct (parseTier (opt_tier opts)) as [tier|e]; cbn;
     repeat split; eexists; (split; [reflexivity|]);
     intros; (reflexivity || discriminate)).
Qed.

(** What the [list] handler writes is computed from what [listSecrets]
    gives, and from nothing else of the broker. *)
Lemma secrets_list_of_listing (opts : SecretsOpts) (b1 b2 : B) :
  fst (listSecrets b1) = fst (listSecrets b2) ->
  observed (secrets_list opts (start b1))
  = observed (secrets_list opts (start b2)).
Proof.
  intros Hl. run_handler.
  destruct (listSecrets b1) as [r1 b1'], (listSecrets b2) as [r2 b2'].
  cbn in Hl. subst r2. destruct r1 as [listing|e]; [|reflexivity].
  destruct (flag (opt_json opts)); [reflexivity|].
  destruct listing; reflexivity.
Qed.

(** [parseInt(s, 10)] is [NaN] exactly when no decimal digit follows
    the leading white space and the optional sign. *)
Lemma digits_from_seen (acc : Z) (s : list ascii) :
  exists z, JS.digits_from acc true s = Some z.
Proof.
  revert acc. induction s as [|c s IH]; intros acc; cbn; [eauto|].
  destruct (JS.digit_of c); eauto.
Qed.

Lemma parseInt10_NaN (s : string) :
  JS.isNaN (JS.parseInt10 s)
  = negb (JS.starts_with_digit (snd (JS.signed_part s))).
Proof.
  unfold JS.parseInt10. destruct (JS.signed_part s) as [neg rest]. cbn [snd].
  destruct rest as [|c rest]; [reflexivity|].
  cbn [JS.digits_from JS.starts_with_digit]. unfold JS.digit_of.
  destruct (JS.byte_in 48 57 c); [|reflexivity].
  destruct (digits_from_seen (10 * 0 + (Z.of_N (N_of_ascii c) - 48)) rest)
    as [z ->].
  unfold JS.number_of_nat_value.
  destruct (2 ^ 1024 <=? JS.round_to_double z), neg; reflexivity.
Qed.

(** What the [grant] handler does check of a non-empty [--ttl]: when
    [parseInt(ttl, 10)] is [NaN] or is not above zero it writes the
    error and exits with code 1 without invoking [grantSecret];
    otherwise it invokes [grantSecret] once with the parsed number. *)
Theorem secrets_grant_ttl_checked (name code ttl : string)
    (opts : SecretsOpts) (b : B) :
  opt_ttl opts = Some ttl -> ttl <> "" ->
  let r := secrets_grant name code opts (start b) in
  let n := JS.parseInt10 ttl in
  (JS.isNaN n || JS.le_zero n = true ->
   calls (snd r) = [] /\ broker (snd r) = b
   /\ observed r = ([Error "TTL must be a positive number"], Exited 1))
  /\ (JS.isNaN n || JS.le_zero n = false ->
      calls (snd r) = [GrantSecret name code (Some n)]
      /\ ((exists z, n = JS.Num z /\ 0 < z) \/ n = JS.PosInf)).
Proof.
  intros Hopt Hne. cbv zeta. run_handler. rewrite Hopt.
  destruct ttl as [|c0 ttl]; [congruence|].
  cbn [JS.truthy_opt JS.truthy default from_option id].
  set (n := JS.parseInt10 (String c0 ttl)).
  destruct (JS.isNaN n || JS.le_zero n) eqn:Hbad; cbn.
  - split; [intros _; repeat split|discriminate].
  - split; [discriminate|]. intros _. split.
    + destruct (grantSecret name code (Some n) b) as [[e|e] b']; reflexivity.
    + destruct n as [|z| |]; cbn in Hbad; try discriminate.
      * left. exists z. split; [reflexivity|]. lia.
      * right. reflexivity.
Qed.

End HandlerFacts.

(** * Properties of the broker *)

Section BrokerFacts.

Import Secrets.

Context {crypto : Model.Crypto}.

Lemma grants_of_without_same (name : string) (gs : list Model.Grant) :
  List.filter (Model.grant_is_for name) (Model.without_grants_of name gs) = [].
Proof.
  unfold Model.without_grants_of.
  induction gs as [|g gs IH]; [reflexivity|]. cbn.
  destruct (Model.grant_is_for name g) eqn:Hg; cbn; rewrite ?Hg; exact IH.
Qed.

Lemma grants_of_without_other (name other : string) (gs : list Model.Grant) :
  name <> other ->
  List.filter (Model.grant_is_for name) (Model.without_grants_of other gs)
  = List.filter (Model.grant_is_for name) gs.
Proof.
  intros Hne. unfold Model.without_grants_of.
  induction gs as [|g gs IH]; [reflexivity|]. cbn.
  destruct (Model.grant_is_for other g) eqn:Ho,
           (Model.grant_is_for name g) eqn:Hn; cbn; rewrite ?Hn, IH;
    try reflexivity.
  unfold Model.grant_is_for in Ho, Hn.
  apply String.eqb_eq in Ho, Hn. congruence.
Qed.

Lemma grants_of_without_le (name other : string) (gs : list Model.Grant) :
  (length (List.filter (Model.grant_is_for name)
             (Model.without_grants_of other gs))
   <= length (List.filter (Model.grant_is_for name) gs))%nat.
Proof.
  destruct (String.eqb_spec name other) as [->|Hne].
  - rewrite grants_of_without_same. cbn. lia.
  - rewrite grants_of_without_other by assumption. lia.
Qed.

Lemma issue_grants (name code : string) (ttl : option Z) (s s' : Model.state)
    (e : Z) :
  Model.issue name code ttl s = (Return e, s') ->
  e = Model.clock s + default Model.defaultTtlMinutes ttl * 60000
  /\ Model.clock s' = Model.clock s
  /\ Model.grants s'
     = {| Model.secretName := name; Model.issuedAt := Model.clock s;
          Model.expiresAt := e |}
       :: Model.without_grants_of name (Model.grants s).
Proof.
  unfold Model.issue. intros Hi.
  destruct (Model.registry s !! name) as [record|]; [|discriminate].
  destruct (negb (Model.code_verifies code s)); [discriminate|].
  destruct (Model.tier record); try discriminate;
    injection Hi as <- <-; repeat split.
Qed.

Lemma issue_failed (name code : string) (ttl : option Z) (s : Model.state) :
  (exists e, fst (Model.issue name code ttl s) = Return e)
  \/ snd (Model.issue name code ttl s) = s.
Proof.
  unfold Model.issue.
  destruct (Model.registry s !! name) as [record|]; [|right; reflexivity].
  destruct (negb (Model.code_verifies code s)); [right; reflexivity|].
  destruct (Model.tier record);
    [right; reflexivity|left; eexists; reflexivity..].
Qed.

Lemma grants_of_cons_same (name : string) (g : Model.Grant)
    (gs : list Model.Grant) :
  Model.secretName g = name ->
  List.filter (Model.grant_is_for name)
    (g :: Model.without_grants_of name gs) = [g].
Proof.
  intros Hg. cbn. unfold Model.grant_is_for at 1. rewrite Hg, String.eqb_refl.
  rewrite grants_of_without_same. reflexivity.
Qed.

Lemma step_one_grant_each (s : Model.state) (o : Model.op) :
  Model.one_grant_each s -> Model.one_grant_each (Model.step s o).
Proof.
  intros Hs name. specialize (Hs name). unfold Model.grants_of in *.
  destruct o as [n v t d|n| |n|n c ttl|n|k|dt]; cbn [Model.step].
  - exact Hs.
  - unfold Model.get.
    destruct (Model.registry s !! n) as [record|]; [|exact Hs].
    destruct (match Model.tier record with TierOpen => true | _ => _ end);
      [destruct (Model.unseal (Model.sealedValue record))|]; exact Hs.
  - exact Hs.
  - unfold Model.delete. destruct (Model.registry s !! n); [|exact Hs].
    cbn [snd Model.log_audit Model.grants].
    etransitivity; [apply grants_of_without_le|exact Hs].
  - destruct (Model.issue n c ttl s) as [[e|e] s'] eqn:Hi; cbn [snd].
    + apply issue_grants in Hi as (_ & _ & ->).
      destruct (String.eqb_spec n name) as [->|Hne].
      * rewrite grants_of_cons_same by reflexivity. cbn. lia.
      * cbn [List.filter]. unfold Model.grant_is_for at 1.
        cbn [Model.secretName].
        apply String.eqb_neq in Hne. rewrite Hne.
        etransitivity; [apply grants_of_without_le|exact Hs].
    + destruct (issue_failed n c ttl s) as [[e' He]|Hsame].
      * rewrite Hi in He. discriminate.
      * rewrite Hi in Hsame. cbn in Hsame. subst s'. exact Hs.
  - cbn [Model.revoke snd Model.log_audit Model.grants].
    etransitivity; [apply grants_of_without_le|exact Hs].
  - exact Hs.
  - exact Hs.
Qed.

Lemma run_one_grant_each (ops : list Model.op) (s : Model.state) :
  Model.one_grant_each s -> Model.one_grant_each (Model.run ops s).
Proof.
  revert s. induction ops as [|o ops IH]; intros s Hs; [exact Hs|].
  cbn. apply IH, step_one_grant_each, Hs.
Qed.

(** C7.  In every state the broker reaches, no secret has more than one
    grant; and issuing grant A, then (any time later) grant B for the
    same secret leaves exactly one grant for it, which expires when B
    does: at the time of issuing B plus B's duration. *)
Theorem one_grant_per_secret (history : list Model.op)
    (name codeA codeB : string) (ttlA ttlB : option Z) (dt : Z) :
  let s := Model.run history Model.initial in
  (forall n, (length (Model.grants_of n s) <= 1)%nat)
  /\ (forall eA eB,
        let sA := snd (Model.issue name codeA ttlA s) in
        let sB := snd (Model.issue name codeB ttlB (Model.advance dt sA)) in
        fst (Model.issue name codeA ttlA s) = Return eA ->
        fst (Model.issue name codeB ttlB (Model.advance dt sA)) = Return eB ->
        Model.grants_of name sB
        = [{| Model.secretName := name; Model.issuedAt := Model.clock sB;
              Model.expiresAt := eB |}]
        /\ eB = Model.clock sB
                + default Model.defaultTtlMinutes ttlB * 60000).
Proof.
  intros s. split.
  - apply run_one_grant_each. intros n. cbn. lia.
  - intros eA eB sA sB HA HB.
    assert (HB' : Model.issue name codeB ttlB (Model.advance dt sA)
                  = (Return eB, sB)).
    { subst sB. destruct (Model.issue name codeB ttlB (Model.advance dt sA)).
      cbn in HB. subst. reflexivity. }
    apply issue_grants in HB' as (He & Hclock & Hgrants).
    unfold Model.grants_of. rewrite Hgrants, Hclock.
    split; [|exact He].
    apply grants_of_cons_same. reflexivity.
Qed.

Lemma get_holds_open (name value : string) (s : Model.state) :
  Model.holds_open name value s ->
  fst (Model.get name s) = Return (Some value).
Proof.
  intros (record & Hr & Ht & Hu). unfold Model.get.
  rewrite Hr, Ht, Hu. reflexivity.
Qed.

Lemma step_holds_open (name value : string) (s : Model.state) (o : Model.op) :
  Model.rewrites name o = false ->
  Model.holds_open name value s ->
  Model.holds_open name value (Model.step s o).
Proof.
  intros Ho (record & Hr & Ht & Hu).
  assert (Hsame : Model.registry (Model.step s o) !! name = Some record).
  { destruct o as [n v t d|n| |n|n c ttl|n|k|dt]; cbn [Model.step];
      cbn [Model.rewrites] in Ho; try apply String.eqb_neq in Ho.
    - cbn. rewrite lookup_insert_ne by exact Ho. exact Hr.
    - unfold Model.get. destruct (Model.registry s !! n) as [r0|]; [|exact Hr].
      destruct (match Model.tier r0 with TierOpen => true | _ => _ end);
        [destruct (Model.unseal (Model.sealedValue r0))|]; exact Hr.
    - exact Hr.
    - unfold Model.delete. destruct (Model.registry s !! n); [|exact Hr].
      cbn. rewrite lookup_delete_ne by exact Ho. exact Hr.
    - destruct (Model.issue n c ttl s) as [[e|e] s'] eqn:Hi; cbn [snd].
      + unfold Model.issue in Hi.
        destruct (Model.registry s !! n) as [r0|]; [|discriminate].
        destruct (negb (Model.code_verifies c s)); [discriminate|].
        destruct (Model.tier r0); try discriminate;
          injection Hi as _ <-; exact Hr.
      + destruct (issue_failed n c ttl s) as [[e' He]|Hsame].
        * rewrite Hi in He. discriminate.
        * rewrite Hi in Hsame. cbn in Hsame. subst s'. exact Hr.
    - exact Hr.
    - exact Hr.
    - exact Hr. }
  exists record. auto.
Qed.

Lemma run_holds_open (name value : string) (later : list Model.op)
    (s : Model.state) :
  forallb (fun o => negb (Model.rewrites name o)) later = true ->
  Model.holds_open name value s ->
  Model.holds_open name value (Model.run later s).
Proof.
  revert s. induction later as [|o later IH]; intros s Hl Hs; [exact Hs|].
  cbn in Hl. apply andb_prop in Hl as [Ho Hl]. apply negb_true_iff in Ho.
  cbn. apply IH; [exact Hl|]. apply step_holds_open; assumption.
Qed.

(** C6.  Once a value is stored with [set] under tier [open], [get]
    succeeds and gives that value, whatever grants exist or do not exist,
    after any later invocations that do not store or delete this secret
    (a crypto engine that unseals what it sealed is assumed). *)
Theorem open_secret_readable (s : Model.state) (name value : string)
    (d : option string) (later : list Model.op) :
  (forall n v, Model.unseal (Model.seal n v) = Some v) ->
  forallb (fun o => negb (Model.rewrites name o)) later = true ->
  fst (Model.get name
         (Model.run later (snd (Model.set name value TierOpen d s))))
  = Return (Some value).
Proof.
  intros Hseal Hlater. apply get_holds_open, run_holds_open; [exact Hlater|].
  eexists. cbn. rewrite lookup_insert_eq. repeat split. cbn. apply Hseal.
Qed.

Lemma isValid_depends (name : string) (s1 s2 : Model.state) :
  Model.grants s1 = Model.grants s2 -> Model.clock s1 = Model.clock s2 ->
  Model.isValid name s1 = Model.isValid name s2.
Proof.
  intros Hg Hc. unfold Model.isValid, Model.grants_of. rewrite Hg, Hc.
  reflexivity.
Qed.

(** The listing is computed from the names and tiers of the registry,
    the grants and the clock. *)
Lemma list_depends (s1 s2 : Model.state) :
  Model.tier <$> Model.registry s1 = Model.tier <$> Model.registry s2 ->
  Model.grants s1 = Model.grants s2 -> Model.clock s1 = Model.clock s2 ->
  fst (Model.list s1) = fst (Model.list s2).
Proof.
  intros Hr Hg Hc.
  assert (Hshape : forall s,
    fst (Model.list s)
    = Return (map (fun p : string * SecretTier =>
                     {| name := fst p; tier := snd p;
                        grant := Model.isValid (fst p) s |})
                  (map_to_list (Model.tier <$> Model.registry s)))).
  { intros s. unfold Model.list. cbn [fst]. f_equal.
    rewrite map_to_list_fmap.
    induction (map_to_list (Model.registry s)) as [|[n r] l IH];
      [reflexivity|]. cbn. f_equal. exact IH. }
  rewrite !Hshape, Hr. f_equal. apply map_ext. intros [n t]. cbn.
  f_equal. apply isValid_depends; assumption.
Qed.

Context {env : Terminal.Env}.

#[local] Existing Instance Model.broker.

(** C4.  What [secrets list] writes, as a table or as JSON, is computed
    from the names, the tiers and the grants alone: two brokers that
    agree on these and hold different sealed values (hence different
    plaintexts) are observed alike. *)
Theorem secrets_list_hides_values (opts : Cli.SecretsOpts)
    (s1 s2 : Model.state) :
  Model.tier <$> Model.registry s1 = Model.tier <$> Model.registry s2 ->
  Model.grants s1 = Model.grants s2 -> Model.clock s1 = Model.clock s2 ->
  Cli.observed (Cli.secrets_list opts (Cli.start s1))
  = Cli.observed (Cli.secrets_list opts (Cli.start s2)).
Proof.
  intros Hr Hg Hc.
  apply (secrets_list_of_listing (ops := Model.broker)).
  apply list_depends; assumption.
Qed.

End BrokerFacts.

(** * The handlers and the broker on concrete invocations *)

Section Runs.

Import Secrets Terminal Cli.

#[local] Existing Instance Fixture.crypto.
#[local] Existing Instance Fixture.env.
#[local] Existing Instance Model.broker.

(** [parseInt(s, 10)] reads a decimal prefix. *)
Example parseInt10_samples :
  JS.parseInt10 "15" = JS.Num 15
  /\ JS.parseInt10 " 7 " = JS.Num 7
  /\ JS.parseInt10 "5abc" = JS.Num 5
  /\ JS.parseInt10 "1.5" = JS.Num 1
  /\ JS.parseInt10 "-3" = JS.Num (-3)
  /\ JS.parseInt10 "0" = JS.Num 0
  /\ JS.parseInt10 "abc" = JS.NaN
  /\ JS.parseInt10 "" = JS.NaN
  /\ JS.parseInt10 "9007199254740993" = JS.Num 9007199254740992.
Proof. repeat split; vm_compute; reflexivity. Qed.

(** The table of [secrets list] on a broker with one restricted secret. *)
Example secrets_list_table :
  observed (secrets_list Fixture.no_opts (start Fixture.enrolled))
  = ([Log "db-pass | restricted | ✗ needs grant | —"], Normal tt).
Proof. vm_compute. reflexivity. Qed.

(** C1 on two brokers: an unknown secret and a restricted secret
    without grant look alike in [secrets get]. *)
Lemma secrets_get_absent_uniform_witness :
  fst (Model.get "db-pass" (Model.initial : Fixture.state)) = Return None
  /\ fst (Model.get "db-pass" Fixture.enrolled) = Return None
  /\ observed (secrets_get "db-pass" Fixture.no_opts
                 (start (Model.initial : Fixture.state)))
     = ([Error "Secret 'db-pass' not found or access denied"], Exited 2)
  /\ observed (secrets_get "db-pass" Fixture.no_opts
                 (start (Model.initial : Fixture.state)))
     = observed (secrets_get "db-pass" Fixture.no_opts
                   (start Fixture.enrolled)).
Proof.
  split; [reflexivity|]. split; [reflexivity|].
  apply (secrets_get_absent_uniform "db-pass" Fixture.no_opts
           (Model.initial : Fixture.state) Fixture.enrolled);
    reflexivity.
Defined.

(** C9 on three runs: a stored open secret, a secret without grant, and
    a broker that throws. *)
Lemma secrets_get_outcomes_witness :
  observed (secrets_get "motd" Fixture.no_opts (start Fixture.readable))
  = ([Log "hello"], Normal tt)
  /\ observed (secrets_get "db-pass" Fixture.no_opts (start Fixture.enrolled))
     = ([Error "Secret 'db-pass' not found or access denied"], Exited 2)
  /\ observed (secrets_get (ops := Fixture.offline) "motd" Fixture.no_opts
                 (start tt))
     = ([Error "Failed to get secret: StorageError: state unavailable"],
        Exited 1)
  /\ (fst (secrets_get "motd" Fixture.no_opts (start Fixture.readable))
      = Normal tt <->
      exists v, fst (getSecret "motd" Fixture.readable) = Return (Some v)
                /\ JS.truthy_opt (Some v) = true).
Proof.
  split; [|split; [|split]].
  - apply (proj1 (secrets_get_outcomes "motd" Fixture.no_opts
                    Fixture.readable) "hello"); reflexivity.
  - apply (proj1 (proj2 (secrets_get_outcomes "db-pass" Fixture.no_opts
                           Fixture.enrolled)) None); reflexivity.
  - apply (proj1 (proj2 (proj2 (secrets_get_outcomes (ops := Fixture.offline)
                                  "motd" Fixture.no_opts tt)))
             "StorageError: state unavailable").
    reflexivity.
  - apply (proj1 (proj2 (proj2 (proj2 (secrets_get_outcomes "motd"
                                         Fixture.no_opts
                                         Fixture.readable))))).
Defined.

(** C2 as stated fails: [OPEN] is none of the three tier strings, and
    [secrets set --tier OPEN] stores the secret. *)
Lemma secrets_set_tier_uppercase :
  ~ In "OPEN" ["open"; "controlled"; "restricted"]
  /\ parseTier (Some "OPEN") = Return TierOpen
  /\ (let r := secrets_set Fixture.terminal_stdin "k"
                 (Fixture.with_tier "OPEN" "v") (start Fixture.enrolled) in
      calls (snd r) = [SetSecret "k" "v" TierOpen None]
      /\ fst r = Normal tt).
Proof.
  split.
  - intros [H|[H|[H|[]]]]; discriminate.
  - split; [reflexivity|]. split; reflexivity.
Qed.

(** C2 on two tier options: [Restricted] is accepted, [secret] is
    rejected before any broker call. *)
Lemma secrets_set_tier_checked_witness :
  "Restricted" <> ""
  /\ parseTier (Some "Restricted") = Return TierRestricted
  /\ (let r := secrets_set Fixture.terminal_stdin "k"
                 (Fixture.with_tier "secret" "v") (start Fixture.enrolled) in
      calls (snd r) = [] /\ broker (snd r) = Fixture.enrolled
      /\ observed r
         = ([Error ("Failed to set secret: Invalid tier: secret"
                      +++ ". Must be open, controlled, or restricted.")],
            Exited 1)).
Proof.
  split; [discriminate|]. split.
  - apply (proj1 (secrets_set_tier_checked (B := Fixture.state) "Restricted"
                    ltac:(discriminate)) TierRestricted).
    reflexivity.
  - apply (proj2 (secrets_set_tier_checked (B := Fixture.state) "secret"
                    ltac:(discriminate))).
    + intros []; discriminate.
    + reflexivity.
Defined.

(** C8 on two runs: no tier option with a piped value, which leaves the
    secret in the registry under tier [controlled], and a tier option in
    mixed case. *)
Lemma secrets_set_default_tier_witness :
  (let r := secrets_set (Fixture.piped " v ") "k" Fixture.no_opts
              (start Fixture.enrolled) in
   calls (snd r) = [SetSecret "k" "v" TierControlled None]
   /\ broker (snd r)
      = snd (Model.set "k" "v" TierControlled None Fixture.enrolled)
   /\ Model.tier <$> Model.registry (broker (snd r)) !! "k"
      = Some TierControlled
   /\ observed r = ([Log "✓ Secret 'k' stored (tier: controlled)"],
                    Normal tt))
  /\ (let r := secrets_set Fixture.terminal_stdin "k"
                 (Fixture.with_tier "ReStRiCtEd" "v")
                 (start Fixture.enrolled) in
      calls (snd r) = [SetSecret "k" "v" TierRestricted None]
      /\ broker (snd r)
         = snd (Model.set "k" "v" TierRestricted None Fixture.enrolled)).
Proof.
  assert (Hpiped : provides (Fixture.piped " v ") Fixture.no_opts "v").
  { right. split; [reflexivity|]. split; [reflexivity|].
    exists " v ". split; reflexivity. }
  pose proof (secrets_set_default_tier (Fixture.piped " v ") "k" "v"
                Fixture.no_opts Fixture.enrolled Hpiped
                ltac:(discriminate))
    as (_ & _ & _ & Hdefault & _).
  pose proof (secrets_set_default_tier Fixture.terminal_stdin "k" "v"
                (Fixture.with_tier "ReStRiCtEd" "v") Fixture.enrolled
                (or_introl eq_refl) ltac:(discriminate))
    as (_ & _ & _ & _ & Hcase).
  destruct (Hdefault eq_refl) as (Hcalls & Hstate & Hline).
  destruct (Hcase "ReStRiCtEd" TierRestricted eq_refl eq_refl)
    as (Hcalls' & Hstate' & _).
  split.
  - split; [exact Hcalls|]. split; [exact Hstate|].
    split; [reflexivity|]. exact (Hline tt eq_refl).
  - split; [exact Hcalls'|exact Hstate'].
Defined.

(** C5 on a standard input that holds two spaces. *)
Lemma secrets_set_needs_value_witness :
  JS.trim "  " = ""
  /\ (let r := secrets_set (Fixture.piped "  ") "k" Fixture.no_opts
                 (start Fixture.enrolled) in
      calls (snd r) = [] /\ broker (snd r) = Fixture.enrolled
      /\ exists message,
         observed r = ([Error message], Exited 1)
         /\ (forall tier, parseTier None = Return tier ->
             message = "No value provided. Use --value or pipe to stdin.")).
Proof.
  split; [reflexivity|].
  apply (secrets_set_needs_value (Fixture.piped "  ") "k" Fixture.no_opts
           Fixture.enrolled eq_refl).
  right. exists "  ". split; reflexivity.
Defined.

(** C3.  A TTL that is not a number must make [secrets grant] fail with
    a validation error, with [grantSecret] not invoked; the handler,
    which checks what [parseInt] reads from the start of the text, and
    only when the text is not empty, misses such TTLs.  On an empty
    [--ttl] and on [5abc] it invokes [grantSecret], without a TTL for
    the first and with 5 minutes for the second, and returns normally. *)
Lemma secrets_grant_ttl_unchecked :
  (let r := secrets_grant "db-pass" "123456" (Fixture.with_ttl "")
              (start Fixture.enrolled) in
   calls (snd r) = [GrantSecret "db-pass" "123456" None]
   /\ fst r = Normal tt)
  /\ (let r := secrets_grant "db-pass" "123456" (Fixture.with_ttl "5abc")
                 (start Fixture.enrolled) in
      calls (snd r) = [GrantSecret "db-pass" "123456" (Some (JS.Num 5))]
      /\ fst r = Normal tt).
Proof. split; split; vm_compute; reflexivity. Qed.

(** The check on two TTLs: [-5] is rejected, [15] is forwarded. *)
Lemma secrets_grant_ttl_checked_witness :
  (let r := secrets_grant "db-pass" "123456" (Fixture.with_ttl "-5")
              (start Fixture.enrolled) in
   calls (snd r) = [] /\ broker (snd r) = Fixture.enrolled
   /\ observed r = ([Error "TTL must be a positive number"], Exited 1))
  /\ (let r := secrets_grant "db-pass" "123456" (Fixture.with_ttl "15")
                 (start Fixture.enrolled) in
      calls (snd r)
      = [GrantSecret "db-pass" "123456" (Some (JS.parseInt10 "15"))]
      /\ ((exists z, JS.parseInt10 "15" = JS.Num z /\ 0 < z)
          \/ JS.parseInt10 "15" = JS.PosInf)).
Proof.
  split.
  - apply (proj1 (secrets_grant_ttl_checked "db-pass" "123456" "-5"
                    (Fixture.with_ttl "-5") Fixture.enrolled eq_refl
                    ltac:(discriminate))).
    reflexivity.
  - apply (proj2 (secrets_grant_ttl_checked "db-pass" "123456" "15"
                    (Fixture.with_ttl "15") Fixture.enrolled eq_refl
                    ltac:(discriminate))).
    reflexivity.
Defined.

(** C10 on an invocation without [--confirm]. *)
Lemma secrets_delete_needs_confirm_witness :
  let r := secrets_delete "db-pass" Fixture.no_opts (start Fixture.enrolled) in
  calls (snd r) = [] /\ broker (snd r) = Fixture.enrolled
  /\ observed r = ([Error "Deletion requires --confirm flag"], Exited 1).
Proof.
  apply (proj1 (secrets_delete_needs_confirm "db-pass" Fixture.no_opts
                  Fixture.enrolled)).
  reflexivity.
Defined.

(** C6 on an open secret read after other invocations. *)
Lemma open_secret_readable_witness :
  let later := [Model.OpGet "motd";
                Model.OpSet "db-pass" "s3cr3t" TierRestricted None;
                Model.OpAdvance 60000; Model.OpRevoke "motd";
                Model.OpDelete "db-pass"] in
  (forall n v, Model.unseal (Model.seal n v) = Some v)
  /\ forallb (fun o => negb (Model.rewrites "motd" o)) later = true
  /\ fst (Model.get "motd"
            (Model.run later
               (snd (Model.set "motd" "hello" TierOpen None Model.initial))))
     = Return (Some "hello").
Proof.
  intros later.
  assert (Hseal : forall n v, Model.unseal (Model.seal n v) = Some v)
    by (intros n v; reflexivity).
  split; [exact Hseal|]. split; [reflexivity|].
  apply (open_secret_readable Model.initial "motd" "hello" None later Hseal).
  reflexivity.
Defined.

(** C7 on a grant of 5 minutes replaced, one minute later, by a grant
    of 10 minutes. *)
Lemma one_grant_per_secret_witness :
  let s := Fixture.enrolled in
  let sA := snd (Model.issue "db-pass" "123456" (Some 5) s) in
  let sB := snd (Model.issue "db-pass" "123456" (Some 10)
                   (Model.advance 60000 sA)) in
  fst (Model.issue "db-pass" "123456" (Some 5) s) = Return 300000
  /\ fst (Model.issue "db-pass" "123456" (Some 10) (Model.advance 60000 sA))
     = Return 660000
  /\ Model.grants_of "db-pass" sB
     = [{| Model.secretName := "db-pass"; Model.issuedAt := Model.clock sB;
           Model.expiresAt := 660000 |}]
  /\ 660000
     = Model.clock sB + default Model.defaultTtlMinutes (Some 10) * 60000.
Proof.
  intros s sA sB.
  split; [reflexivity|]. split; [reflexivity|].
  apply (proj2 (one_grant_per_secret
                  [Model.OpSetupTotp "JBSWY3DPEHPK3PXP";
                   Model.OpSet "db-pass" "s3cr3t" TierRestricted None]
                  "db-pass" "123456" "123456" (Some 5) (Some 10) 60000)
           300000 660000);
    reflexivity.
Defined.

(** C4 on two brokers that store different values under one name. *)
Lemma secrets_list_hides_values_witness :
  Model.registry Fixture.enrolled <> Model.registry Fixture.enrolled'
  /\ observed (secrets_list Fixture.with_json (start Fixture.enrolled))
     = observed (secrets_list Fixture.with_json (start Fixture.enrolled'))
  /\ observed (secrets_list Fixture.no_opts (start Fixture.enrolled))
     = observed (secrets_list Fixture.no_opts (start Fixture.enrolled')).
Proof.
  split.
  - intros Heq.
    assert (Hv : Model.registry Fixture.enrolled !! "db-pass"
                 = Model.registry Fixture.enrolled' !! "db-pass")
      by (rewrite Heq; reflexivity).
    vm_compute in Hv. discriminate.
  - split;
      apply (secrets_list_hides_values _ Fixture.enrolled Fixture.enrolled');
      reflexivity.
Defined.

End Runs.

(** * White space and digits *)

Lemma strip_prefix_length (p : list N) (s r : list ascii) :
  JS.strip_prefix p s = Some r -> length s = (length p + length r)%nat.
Proof.
  revert s. induction p as [|n p IH]; intros s Hs; cbn in Hs.
  - injection Hs as ->. reflexivity.
  - destruct s as [|c s]; [discriminate|].
    destruct (N_of_ascii c =? n)%N; [|discriminate].
    cbn. rewrite (IH s Hs). reflexivity.
Qed.

Lemma strip_prefix_app (p : list N) (s r t : list ascii) :
  JS.strip_prefix p s = Some r -> JS.strip_prefix p (s ++ t) = Some (r ++ t).
Proof.
  revert s. induction p as [|n p IH]; intros s Hs; cbn in Hs.
  - injection Hs as ->. reflexivity.
  - destruct s as [|c s]; [discriminate|]. cbn.
    destruct (N_of_ascii c =? n)%N; [|discriminate]. apply IH, Hs.
Qed.

Lemma strip_prefix_suffix (p : list N) (s r : list ascii) :
  JS.strip_prefix p s = Some r -> exists pre, s = pre ++ r.
Proof.
  revert s. induction p as [|n p IH]; intros s Hs; cbn in Hs.
  - injection Hs as ->. exists []. reflexivity.
  - destruct s as [|c s]; [discriminate|].
    destruct (N_of_ascii c =? n)%N; [|discriminate].
    destruct (IH s Hs) as [pre ->]. exists (c :: pre). reflexivity.
Qed.

Lemma strip_any_shorter (ps : list (list N)) (s r : list ascii) :
  Forall (fun p => p <> []) ps ->
  JS.strip_any ps s = Some r -> (length r < length s)%nat.
Proof.
  induction 1 as [|p qs Hp _ IH]; cbn; [discriminate|].
  destruct (JS.strip_prefix p s) as [r'|] eqn:Hs; [|exact IH].
  intros [= ->]. apply strip_prefix_length in Hs.
  destruct p; [congruence|]. cbn in Hs. lia.
Qed.

Lemma strip_any_empty (ps : list (list N)) :
  Forall (fun p => p <> []) ps -> JS.strip_any ps [] = None.
Proof.
  induction 1 as [|p qs Hp _ IH]; [reflexivity|].
  cbn. destruct p; [congruence|]. exact IH.
Qed.

Lemma strip_any_suffix (ps : list (list N)) (s r : list ascii) :
  JS.strip_any ps s = Some r -> exists pre, s = pre ++ r.
Proof.
  induction ps as [|p qs IH]; cbn; [discriminate|].
  destruct (JS.strip_prefix p s) as [r'|] eqn:Hs; [|exact IH].
  intros [= ->]. eapply strip_prefix_suffix, Hs.
Qed.

Lemma strip_any_app (ps : list (list N)) (s t : list ascii) :
  JS.strip_any ps (s ++ t) = None -> JS.strip_any ps s = None.
Proof.
  induction ps as [|p qs IH]; cbn; [reflexivity|].
  destruct (JS.strip_prefix p s) as [r|] eqn:Hs.
  - rewrite (strip_prefix_app p s r t Hs). discriminate.
  - destruct (JS.strip_prefix p (s ++ t)); [discriminate|]. exact IH.
Qed.

Lemma skip_ws_stripped (ps : list (list N)) (fuel : nat) (s : list ascii) :
  Forall (fun p => p <> []) ps -> (length s <= fuel)%nat ->
  JS.strip_any ps (JS.skip_ws fuel ps s) = None.
Proof.
  intros Hps. revert s. induction fuel as [|fuel IH]; intros s Hlen; cbn.
  - destruct s; [|cbn in Hlen; lia]. apply strip_any_empty, Hps.
  - destruct (JS.strip_any ps s) as [r|] eqn:Hs; [|exact Hs].
    apply IH. apply (strip_any_shorter ps s r Hps) in Hs. lia.
Qed.

Lemma skip_ws_fixed (ps : list (list N)) (fuel : nat) (s : list ascii) :
  JS.strip_any ps s = None -> JS.skip_ws fuel ps s = s.
Proof.
  intros Hs. destruct fuel; cbn; [reflexivity|]. rewrite Hs. reflexivity.
Qed.

Lemma skip_ws_suffix (ps : list (list N)) (fuel : nat) (s : list ascii) :
  exists pre, s = pre ++ JS.skip_ws fuel ps s.
Proof.
  revert s. induction fuel as [|fuel IH]; intros s; cbn;
    [exists []; reflexivity|].
  destruct (JS.strip_any ps s) as [r|] eqn:Hs; [|exists []; reflexivity].
  destruct (strip_any_suffix ps s r Hs) as [pre ->].
  destruct (IH r) as [pre' Hr]. exists (pre ++ pre').
  rewrite <- app_assoc, <- Hr. reflexivity.
Qed.

Lemma white_space_nonempty : Forall (fun p => p <> []) JS.white_space.
Proof. repeat constructor; discriminate. Qed.

Lemma white_space_rev_nonempty :
  Forall (fun p => p <> []) (map (@rev N) JS.white_space).
Proof. repeat constructor; discriminate. Qed.

(** What [trimStart] leaves does not start with white space, what
    [trimEnd] leaves does not end with white space. *)
Lemma trimStart_bytes_stripped (s : list ascii) :
  JS.strip_any JS.white_space (JS.trimStart_bytes s) = None.
Proof. apply skip_ws_stripped; [apply white_space_nonempty|lia]. Qed.

Lemma trimEnd_bytes_stripped (s : list ascii) :
  JS.strip_any (map (@rev N) JS.white_space) (rev (JS.trimEnd_bytes s)) = None.
Proof.
  unfold JS.trimEnd_bytes. rewrite rev_involutive.
  apply skip_ws_stripped; [apply white_space_rev_nonempty|].
  rewrite length_rev. lia.
Qed.

Lemma trimEnd_bytes_prefix (s : list ascii) :
  exists post, s = JS.trimEnd_bytes s ++ post.
Proof.
  unfold JS.trimEnd_bytes.
  destruct (skip_ws_suffix (map (@rev N) JS.white_space) (length s) (rev s))
    as [pre Hpre].
  exists (rev pre). rewrite <- rev_app_distr, <- Hpre, rev_involutive.
  reflexivity.
Qed.

(** The bytes of a trimmed text neither start nor end with white
    space, so trimming them again changes nothing. *)
Lemma trim_bytes_fixed (s : list ascii) :
  let t := JS.trimEnd_bytes (JS.trimStart_bytes s) in
  JS.strip_any JS.white_space t = None
  /\ JS.strip_any (map (@rev N) JS.white_space) (rev t) = None
  /\ JS.trimEnd_bytes (JS.trimStart_bytes t) = t.
Proof.
  intros t.
  assert (Hstart : JS.strip_any JS.white_space t = None).
  { destruct (trimEnd_bytes_prefix (JS.trimStart_bytes s)) as [post Hpost].
    apply (strip_any_app _ t post). fold t in Hpost. rewrite <- Hpost.
    apply trimStart_bytes_stripped. }
  assert (Hend : JS.strip_any (map (@rev N) JS.white_space) (rev t) = None)
    by apply trimEnd_bytes_stripped.
  repeat split; [exact Hstart|exact Hend|].
  unfold JS.trimStart_bytes at 1. rewrite (skip_ws_fixed _ _ _ Hstart).
  unfold JS.trimEnd_bytes at 1. rewrite (skip_ws_fixed _ _ _ Hend).
  apply rev_involutive.
Qed.

Lemma trim_idempotent (s : string) : JS.trim (JS.trim s) = JS.trim s.
Proof.
  unfold JS.trim. rewrite list_ascii_of_string_of_list_ascii.
  f_equal. apply trim_bytes_fixed.
Qed.

Lemma list_ascii_of_string_app (s t : string) :
  list_ascii_of_string (s +++ t)
  = list_ascii_of_string s ++ list_ascii_of_string t.
Proof.
  induction s as [|c s IH]; [reflexivity|].
  change (c :: list_ascii_of_string (s +++ t)
          = c :: (list_ascii_of_string s ++ list_ascii_of_string t)).
  f_equal. exact IH.
Qed.

Lemma append_empty (s : string) : s +++ EmptyString = s.
Proof.
  induction s as [|c s IH]; [reflexivity|].
  change (String c (s +++ EmptyString) = String c s). f_equal. exact IH.
Qed.

(** A decimal digit starts no white space sequence and is no sign. *)
Lemma digit_not_space (c : ascii) (s : list ascii) :
  JS.byte_in 48 57 c = true ->
  JS.strip_any JS.white_space (c :: s) = None
  /\ (N_of_ascii c =? 45)%N = false /\ (N_of_ascii c =? 43)%N = false.
Proof.
  unfold JS.byte_in. intros Hc.
  apply andb_true_iff in Hc as [Hlo Hhi].
  apply N.leb_le in Hlo, Hhi.
  assert (Hne : forall n, (n < 48 \/ 57 < n)%N -> (N_of_ascii c =? n)%N = false)
    by (intros n Hn; apply N.eqb_neq; lia).
  split; [|split; apply Hne; lia].
  cbn. rewrite !Hne by lia. reflexivity.
Qed.

Lemma digits_from_app (ds rest : list ascii) (c : ascii) (acc : Z)
    (seen : bool) :
  forallb (JS.byte_in 48 57) ds = true -> JS.byte_in 48 57 c = false ->
  JS.digits_from acc seen (ds ++ c :: rest) = JS.digits_from acc seen ds.
Proof.
  intros Hds Hc. revert acc seen.
  induction ds as [|d ds IH]; intros acc seen; cbn.
  - unfold JS.digit_of. rewrite Hc. reflexivity.
  - cbn in Hds. apply andb_true_iff in Hds as [Hd Hds].
    unfold JS.digit_of. rewrite Hd. apply IH, Hds.
Qed.

(** [parseInt(s, 10)] stops at the first character that is no digit:
    what follows a run of digits does not count. *)
Lemma parseInt10_suffix (t rest : string) (c : ascii) :
  Admin.all_digits t = true -> t <> EmptyString ->
  JS.byte_in 48 57 c = false ->
  JS.parseInt10 (t +++ String c rest) = JS.parseInt10 t.
Proof.
  unfold Admin.all_digits. intros Hds Hne Hc.
  assert (Hsign : forall u,
    JS.signed_part (t +++ u)
    = (false, list_ascii_of_string t ++ list_ascii_of_string u)).
  { intros u. unfold JS.signed_part. rewrite list_ascii_of_string_app.
    destruct t as [|d t]; [congruence|]. cbn in Hds.
    apply andb_true_iff in Hds as [Hd _]. cbn [list_ascii_of_string app].
    destruct (digit_not_space d
                (list_ascii_of_string t ++ list_ascii_of_string u) Hd)
      as (Hws & Hm & Hp).
    unfold JS.trimStart_bytes. rewrite (skip_ws_fixed _ _ _ Hws).
    rewrite Hm, Hp. reflexivity. }
  unfold JS.parseInt10.
  rewrite (Hsign (String c rest)).
  pose proof (Hsign EmptyString) as H0.
  rewrite append_empty in H0.
  rewrite H0. cbn [list_ascii_of_string]. rewrite app_nil_r.
  rewrite digits_from_app by assumption. reflexivity.
Qed.

(** * Further properties of the handlers *)

Section MoreHandlerFacts.

Import Secrets Terminal Cli.

Context {B : Type} {ops : Broker B} {env : Env}.

(** Close a goal [reports r codes /\ length (console (snd r)) = 1] on a
    run that is computed. *)
Ltac close_report :=
  cbn; split; [|reflexivity];
  first
    [ left; split; [reflexivity|];
      split; [discriminate|]; repeat constructor; eexists; reflexivity
    | right; do 2 eexists; split; [reflexivity|];
      split; [reflexivity|]; cbn; auto ].

(** X1.  Every run of the [list], [get], [set], [grant], [revoke] and
    [delete] handlers writes exactly one line and never lets an error
    escape: it returns normally after one [Log] line, or exits after one
    [Error] line, with code 1 (or, for [get] only, with code 2). *)
Theorem handlers_report_once (stdin : Stdin) (name code : string)
    (opts : SecretsOpts) (b : B) :
  let once (r : completion unit * world B) (codes : list Z) :=
    Admin.reports r codes /\ length (console (snd r)) = 1%nat in
  once (secrets_list opts (start b)) [1]
  /\ once (secrets_get name opts (start b)) [1; 2]
  /\ once (secrets_set stdin name opts (start b)) [1]
  /\ once (secrets_grant name code opts (start b)) [1]
  /\ once (secrets_revoke name (start b)) [1]
  /\ once (secrets_delete name opts (start b)) [1].
Proof.
  cbv zeta. unfold Admin.reports, Admin.only_logs.
  split; [|split; [|split; [|split; [|split]]]]; run_handler.
  - destruct (listSecrets b) as [[l|e] b']; [|close_report].
    destruct (flag (opt_json opts)); [close_report|].
    destruct l; close_report.
  - destruct (getSecret name b) as [[v|e] b']; [|close_report].
    destruct (JS.truthy_opt v); close_report.
  - destruct (parseTier (opt_tier opts)) as [t|e]; [|close_report].
    destruct (JS.truthy_opt (opt_value opts)).
    + cbn. destruct (JS.truthy (default EmptyString (opt_value opts)));
        [|close_report].
      cbn. destruct (setSecret _ _ _ _ b) as [[[]|e] b']; close_report.
    + destruct (isTTY stdin); cbn; [close_report|].
      destruct (stream stdin) as [data|m]; [|close_report].
      cbn. destruct (JS.truthy (JS.trim data)); [|close_report].
      cbn. destruct (setSecret _ _ _ _ b) as [[[]|e] b']; close_report.
  - destruct (JS.truthy_opt (opt_ttl opts)).
    + destruct (JS.isNaN _ || JS.le_zero _); [close_report|].
      cbn. destruct (grantSecret _ _ _ b) as [[z|e] b']; close_report.
    + cbn. destruct (grantSecret _ _ _ b) as [[z|e] b']; close_report.
  - destruct (revokeSecret name b) as [[[]|e] b']; close_report.
  - destruct (negb (flag (opt_confirm opts))); [close_report|].
    run_handler. destruct (deleteSecret name b) as [[[]|e] b']; close_report.
Qed.

(** X2.  A handler invokes only the broker operation of its command, at
    most once, with the name (and code) it was given, and the broker's
    state afterwards is the one that this call leaves: [list], [get] and
    [revoke] always make their call; [delete], [set] and [grant] make it
    or leave the broker untouched. *)
Theorem handlers_single_call (stdin : Stdin) (name code : string)
    (opts : SecretsOpts) (b : B) :
  Admin.effects (secrets_list opts (start b))
  = ([ListSecrets], snd (listSecrets b))
  /\ Admin.effects (secrets_get name opts (start b))
     = ([GetSecret name], snd (getSecret name b))
  /\ Admin.effects (secrets_revoke name (start b))
     = ([RevokeSecret name], snd (revokeSecret name b))
  /\ (Admin.effects (secrets_delete name opts (start b)) = ([], b)
      \/ Admin.effects (secrets_delete name opts (start b))
         = ([DeleteSecret name], snd (deleteSecret name b)))
  /\ (Admin.effects (secrets_set stdin name opts (start b)) = ([], b)
      \/ exists value tier,
           Admin.effects (secrets_set stdin name opts (start b))
           = ([SetSecret name value tier (opt_description opts)],
              snd (setSecret name value tier (opt_description opts) b)))
  /\ (Admin.effects (secrets_grant name code opts (start b)) = ([], b)
      \/ exists ttl,
           Admin.effects (secrets_grant name code opts (start b))
           = ([GrantSecret name code ttl],
              snd (grantSecret name code ttl b))).
Proof.
  unfold Admin.effects.
  split; [|split; [|split; [|split; [|split]]]]; run_handler.
  - destruct (listSecrets b) as [[l|e] b']; [|reflexivity].
    destruct (flag (opt_json opts)); [reflexivity|]. destruct l; reflexivity.
  - destruct (getSecret name b) as [[v|e] b']; [|reflexivity].
    destruct (JS.truthy_opt v); reflexivity.
  - destruct (revokeSecret name b) as [[[]|e] b']; reflexivity.
  - destruct (negb (flag (opt_confirm opts))); [left; reflexivity|right].
    run_handler. destruct (deleteSecret name b) as [[[]|e] b']; reflexivity.
  - destruct (parseTier (opt_tier opts)) as [t|e]; [|left; reflexivity].
    destruct (JS.truthy_opt (opt_value opts)).
    + cbn. destruct (JS.truthy (default EmptyString (opt_value opts)));
        [|left; reflexivity].
      right. exists (default EmptyString (opt_value opts)), t. cbn.
      destruct (setSecret _ _ _ _ b) as [[[]|e] b']; reflexivity.
    + destruct (isTTY stdin); cbn; [left; reflexivity|].
      destruct (stream stdin) as [data|m]; [|left; reflexivity].
      cbn. destruct (JS.truthy (JS.trim data)); [|left; reflexivity].
      right. exists (JS.trim data), t. cbn.
      destruct (setSecret _ _ _ _ b) as [[[]|e] b']; reflexivity.
  - destruct (JS.truthy_opt (opt_ttl opts)).
    + destruct (JS.isNaN _ || JS.le_zero _); [left; reflexivity|].
      right. exists (Some (JS.parseInt10 (default EmptyString (opt_ttl opts)))).
      cbn. destruct (grantSecret _ _ _ b) as [[z|e] b']; reflexivity.
    + right. exists None. cbn.
      destruct (grantSecret _ _ _ b) as [[z|e] b']; reflexivity.
Qed.

(** X3.  Whatever the options and the standard input, a value that the
    [set] handler hands to [setSecret] is never empty, and it goes with
    the tier that [parseTier] gave and the description as given. *)
Theorem secrets_set_never_stores_empty (stdin : Stdin) (name : string)
    (opts : SecretsOpts) (b : B) (c : call) :
  In c (calls (snd (secrets_set stdin name opts (start b)))) ->
  exists value tier,
    c = SetSecret name value tier (opt_description opts)
    /\ value <> EmptyString
    /\ parseTier (opt_tier opts) = Return tier.
Proof.
  run_handler.
  destruct (parseTier (opt_tier opts)) as [t|e]; [|intros []].
  destruct (JS.truthy_opt (opt_value opts)).
  - cbn. destruct (default EmptyString (opt_value opts)) as [|c0 v] eqn:Hv;
      [intros []|].
    cbn. destruct (setSecret _ _ _ _ b) as [[[]|e] b']; cbn;
      intros [<-|[]]; exists (String c0 v), t; repeat split; discriminate.
  - destruct (isTTY stdin); cbn; [intros []|].
    destruct (stream stdin) as [data|m]; [|intros []].
    cbn. destruct (JS.trim data) as [|c0 v] eqn:Hv; [intros []|].
    cbn. destruct (setSecret _ _ _ _ b) as [[[]|e] b']; cbn;
      intros [<-|[]]; exists (String c0 v), t; repeat split; discriminate.
Qed.

(** X4.  When the broker operation throws, the user is told: the
    handler writes the message of the error after the prefix of its
    command, as its only line, and exits with code 1.  For [grant] this
    holds for whatever TTL the handler forwards, with or without
    [--ttl]. *)
Theorem broker_failure_reported (stdin : Stdin) (name code value : string)
    (tier : SecretTier) (opts : SecretsOpts) (b : B) (e : string) :
  (fst (listSecrets b) = Raise e ->
   observed (secrets_list opts (start b))
   = ([Error ("Failed to list secrets: " +++ e)], Exited 1))
  /\ (fst (revokeSecret name b) = Raise e ->
      observed (secrets_revoke name (start b))
      = ([Error ("Failed to revoke grant: " +++ e)], Exited 1))
  /\ (flag (opt_confirm opts) = true ->
      fst (deleteSecret name b) = Raise e ->
      observed (secrets_delete name opts (start b))
      = ([Error ("Failed to delete secret: " +++ e)], Exited 1))
  /\ (parseTier (opt_tier opts) = Return tier ->
      provides stdin opts value -> value <> EmptyString ->
      fst (setSecret name value tier (opt_description opts) b) = Raise e ->
      observed (secrets_set stdin name opts (start b))
      = ([Error ("Failed to set secret: " +++ e)], Exited 1))
  /\ (forall ttl,
        In (GrantSecret name code ttl)
           (calls (snd (secrets_grant name code opts (start b)))) ->
        fst (grantSecret name code ttl b) = Raise e ->
        observed (secrets_grant name code opts (start b))
        = ([Error ("Failed to grant access: " +++ e)], Exited 1)).
Proof.
  split; [|split; [|split; [|split]]].
  - intros He. run_handler. destruct (listSecrets b) as [res b'].
    cbn in He. subst res. reflexivity.
  - intros He. run_handler. destruct (revokeSecret name b) as [res b'].
    cbn in He. subst res. reflexivity.
  - intros Hc He. run_handler. rewrite Hc. cbn.
    destruct (deleteSecret name b) as [res b']. cbn in He. subst res.
    reflexivity.
  - intros Ht Hv Hne He. run_handler. rewrite Ht.
    destruct value as [|c0 value]; [congruence|].
    destruct Hv as [Hv | (Hv & Htty & data & Hs & Hd)].
    + rewrite Hv. cbn.
      destruct (setSecret _ _ _ _ b) as [res b']. cbn in He. subst res.
      reflexivity.
    + rewrite Hv, Htty, Hs, Hd. cbn.
      destruct (setSecret _ _ _ _ b) as [res b']. cbn in He. subst res.
      reflexivity.
  - intros ttl. run_handler.
    destruct (JS.truthy_opt (opt_ttl opts)).
    + destruct (JS.isNaN _ || JS.le_zero _); [intros []|].
      cbn. destruct (grantSecret name code (Some _) b) as [res b'] eqn:Hg.
      intros Hin He.
      assert (Httl : ttl = Some (JS.parseInt10
                                   (default EmptyString (opt_ttl opts)))).
      { destruct res; cbn in Hin; destruct Hin as [[= <-]|[]]; reflexivity. }
      subst ttl. rewrite Hg in He. cbn in He. subst res. reflexivity.
    + cbn. destruct (grantSecret name code None b) as [res b'] eqn:Hg.
      intros Hin He.
      assert (Httl : ttl = None).
      { destruct res; cbn in Hin; destruct Hin as [[= <-]|[]]; reflexivity. }
      subst ttl. rewrite Hg in He. cbn in He. subst res. reflexivity.
Qed.

(** X5.  A non-empty [--value] wins over the standard input, which is
    then not read: the run is the same whatever the standard input is,
    a terminal, a pipe with data, or a stream that fails. *)
Theorem secrets_set_value_precedence (stdin1 stdin2 : Stdin)
    (name value : string) (opts : SecretsOpts) (w : world B) :
  opt_value opts = Some value -> value <> EmptyString ->
  secrets_set stdin1 name opts w = secrets_set stdin2 name opts w.
Proof.
  intros Hv Hne. run_handler. rewrite Hv.
  destruct value as [|c0 value]; [congruence|]. reflexivity.
Qed.

(** X6.  Without [--value], when the standard input is not a terminal
    and reading it fails, the [set] handler reports the stream's error
    and exits with code 1; [setSecret] is not invoked and the broker's
    state is unchanged. *)
Theorem secrets_set_stdin_failure (stdin : Stdin) (name message : string)
    (tier : SecretTier) (opts : SecretsOpts) (b : B) :
  parseTier (opt_tier opts) = Return tier ->
  JS.truthy_opt (opt_value opts) = false ->
  isTTY stdin = false -> stream stdin = Failure message ->
  let r := secrets_set stdin name opts (start b) in
  calls (snd r) = [] /\ broker (snd r) = b
  /\ observed r = ([Error ("Failed to set secret: " +++ message)], Exited 1).
Proof.
  intros Ht Hv Htty Hs. cbv zeta. run_handler.
  rewrite Ht, Hv, Htty, Hs. cbn. repeat split.
Qed.

(** X7.  A value piped on the standard input is stored trimmed: it
    neither starts nor ends with white space, so that trimming it again
    gives it back; a value given with [--value] is stored as it is. *)
Theorem secrets_set_piped_trimmed (stdin : Stdin) (name data : string)
    (opts : SecretsOpts) (b : B) :
  isTTY stdin = false -> stream stdin = Data data ->
  forall value tier d,
    In (SetSecret name value tier d)
       (calls (snd (secrets_set stdin name opts (start b)))) ->
    (JS.truthy_opt (opt_value opts) = false ->
     value = JS.trim data /\ JS.trim value = value)
    /\ (JS.truthy_opt (opt_value opts) = true ->
        opt_value opts = Some value).
Proof.
  intros Htty Hs value tier d. run_handler. rewrite Htty, Hs.
  destruct (parseTier (opt_tier opts)) as [t|e]; [|intros []].
  destruct (opt_value opts) as [[|c0 v]|]; cbn.
  - destruct (JS.truthy (JS.trim data)); [|intros []]. cbn.
    destruct (setSecret _ _ _ _ b) as [[[]|e] b']; cbn;
      intros [[= <- <- <-]|[]]; (split; [intros _|discriminate]);
      (split; [reflexivity|apply trim_idempotent]).
  - destruct (setSecret _ _ _ _ b) as [[[]|e] b']; cbn;
      intros [[= <- <- <-]|[]]; (split; [discriminate|reflexivity]).
  - destruct (JS.truthy (JS.trim data)); [|intros []]. cbn.
    destruct (setSecret _ _ _ _ b) as [[[]|e] b']; cbn;
      intros [[= <- <- <-]|[]]; (split; [intros _|discriminate]);
      (split; [reflexivity|apply trim_idempotent]).
Qed.

(** X8.  For a valid grant that expires later and a whole number of
    remaining minutes below [2^53] in magnitude (where the numbers of
    the code are exact integers and print all their digits),
    [formatGrantStatus] splits a non-negative number of minutes into
    hours and minutes below sixty, and leaves the hours out when there
    are none; of a negative number of minutes it prints the remainder
    of the division by sixty alone, without the hours. *)
Theorem formatGrantStatus_remaining (expires remaining : Z) :
  expires <> 0 -> Date_now < expires ->
  - 2 ^ 53 < remaining < 2 ^ 53 ->
  (0 <= remaining ->
   exists h m,
     remaining = 60 * h + m /\ 0 <= h /\ 0 <= m < 60
     /\ formatGrantStatus true (Some expires) (Some remaining)
        = success (if h =? 0
                   then JS.show_int m +++ "m"
                   else JS.show_int h +++ "h " +++ JS.show_int m +++ "m"))
  /\ (remaining < 0 ->
      formatGrantStatus true (Some expires) (Some remaining)
      = success (JS.show_int (Z.rem remaining 60) +++ "m")).
Proof.
  intros Hne Hlater _.
  assert (Hhead : forall r,
    formatGrantStatus true (Some expires) (Some r)
    = success (if 0 <? r / 60
               then JS.show_int (r / 60) +++ "h "
                      +++ JS.show_int (Z.rem r 60) +++ "m"
               else JS.show_int (Z.rem r 60) +++ "m")).
  { intros r. unfold formatGrantStatus. cbn [negb orb].
    destruct (Z.eqb_spec expires 0) as [|_]; [contradiction|].
    destruct (Z.leb_spec expires Date_now); [lia|]. reflexivity. }
  split.
  - intros Hr. exists (remaining / 60), (Z.rem remaining 60).
    rewrite Z.rem_mod_nonneg by lia.
    pose proof (Z.div_mod remaining 60 ltac:(lia)) as Hdm.
    pose proof (Z.mod_pos_bound remaining 60 ltac:(lia)) as Hm.
    assert (Hh : 0 <= remaining / 60) by (apply Z.div_pos; lia).
    repeat split; try lia.
    rewrite Hhead, Z.rem_mod_nonneg by lia.
    destruct (Z.ltb_spec 0 (remaining / 60)),
             (Z.eqb_spec (remaining / 60) 0); try lia; reflexivity.
  - intros Hr. rewrite Hhead.
    pose proof (Z.div_mod remaining 60 ltac:(lia)) as Hdm.
    pose proof (Z.mod_pos_bound remaining 60 ltac:(lia)) as Hm.
    destruct (Z.ltb_spec 0 (remaining / 60)); [lia|reflexivity].
Qed.

(** X9.  The row of an open secret does not depend on its grant: two
    listings of an open secret under one name give the same row; and
    every row has the keys of the four columns, in their order. *)
Theorem list_row_open_ignores_grant (s1 s2 : SecretInfo) :
  name s1 = name s2 -> tier s1 = TierOpen -> tier s2 = TierOpen ->
  list_row s1 = list_row s2
  /\ map fst (list_row s1) = map key list_columns.
Proof.
  intros Hn H1 H2. unfold list_row. rewrite Hn, H1, H2. split; reflexivity.
Qed.

(** X10.  When no secret is registered, [secrets list] says so, or
    prints the empty JSON array with [--json]; no table is rendered. *)
Theorem secrets_list_empty (opts : SecretsOpts) (b : B) :
  fst (listSecrets b) = Return [] ->
  observed (secrets_list opts (start b))
  = ([Log (if flag (opt_json opts)
           then "[]"
           else muted "No secrets registered.")],
     Normal tt).
Proof.
  intros Hl. run_handler. destruct (listSecrets b) as [res b'].
  cbn in Hl. subst res. destruct (flag (opt_json opts)); reflexivity.
Qed.

(** X11.  For a non-empty listing without [--json], the one line that
    [secrets list] writes is the rendered table with its trailing white
    space removed; the table has one row per secret, in the order of the
    listing, each row with the keys of the columns, and a width of at
    least 60: one less than the terminal's columns when there are more
    than 60 of them, 119 when the terminal's width is unknown. *)
Theorem secrets_list_renders_table (opts : SecretsOpts) (b : B)
    (listing : list SecretInfo) :
  fst (listSecrets b) = Return listing -> listing <> [] ->
  flag (opt_json opts) = false ->
  exists table,
    observed (secrets_list opts (start b))
    = ([Log (JS.trimEnd (renderTable table))], Normal tt)
    /\ rows table = map list_row listing
    /\ Forall (fun row => map fst row = map key (columns table)) (rows table)
    /\ 60 <= width table
    /\ (forall c, stdout_columns = Some c -> 60 < c -> width table = c - 1)
    /\ (stdout_columns = None -> width table = 119).
Proof.
  intros Hl Hne Hj.
  exists {| width := Z.max 60 (match stdout_columns with
                               | Some c => c
                               | None => 120
                               end - 1);
            columns := list_columns;
            rows := map list_row listing |}.
  split; [|split; [reflexivity|split; [|split; [|split]]]].
  - run_handler. destruct (listSecrets b) as [res b'].
    cbn in Hl. subst res. cbn. rewrite Hj.
    destruct listing; [congruence|reflexivity].
  - cbn [rows columns]. clear.
    induction listing as [|s l IH]; cbn; constructor;
      [reflexivity|exact IH].
  - cbn [width]. lia.
  - intros c Hc Hwide. cbn [width]. rewrite Hc. lia.
  - intros Hnone. cbn [width]. rewrite Hnone. reflexivity.
Qed.

(** X12.  What follows the digits of a [--ttl] does not count: a TTL
    made of digits and a TTL made of the same digits followed by other
    text (a unit, a fraction) give the same run of [secrets grant]. *)
Theorem secrets_grant_ttl_suffix (name code digits rest : string)
    (c : ascii) (opts1 opts2 : SecretsOpts) (w : world B) :
  Admin.all_digits digits = true -> digits <> EmptyString ->
  JS.byte_in 48 57 c = false ->
  opt_ttl opts1 = Some digits ->
  opt_ttl opts2 = Some (digits +++ String c rest) ->
  opt_json opts1 = opt_json opts2 ->
  secrets_grant name code opts1 w = secrets_grant name code opts2 w.
Proof.
  intros Hds Hne Hc H1 H2 Hj. run_handler. rewrite H1, H2, Hj.
  destruct digits as [|d digits]; [congruence|].
  cbn [JS.truthy_opt JS.truthy default from_option id String.append].
  change (String d (digits +++ String c rest))
    with (String d digits +++ String c rest).
  rewrite (parseInt10_suffix (String d digits) rest c Hds Hne Hc).
  reflexivity.
Qed.

(** X13.  [parseTier] reads back the name of every tier, and it does
    not depend on the case of its input: two non-empty texts with one
    lowercase form are accepted as the same tier or both rejected. *)
Theorem parseTier_case_insensitive (t1 t2 : string) :
  t1 <> EmptyString -> t2 <> EmptyString ->
  JS.toLowerCase t1 = JS.toLowerCase t2 ->
  (forall tier,
     parseTier (Some t1) = Return tier <-> parseTier (Some t2) = Return tier)
  /\ (forall tier, parseTier (Some (tier_name tier)) = Return tier).
Proof.
  intros H1 H2 Hlow. split.
  - intros tier.
    rewrite (parseTier_lowercase t1 tier H1), (parseTier_lowercase t2 tier H2).
    rewrite Hlow. reflexivity.
  - intros []; reflexivity.
Qed.

(** X14.  [--json] changes the text of the lines that are logged and
    nothing else: with and without it a handler ends the same way,
    invokes the same broker operations, leaves the same broker state and
    writes the same error lines; [set], [revoke] and [delete] ignore the
    flag altogether. *)
Theorem json_flag_changes_text_only (stdin : Stdin) (name code : string)
    (opts1 opts2 : SecretsOpts) (b : B) :
  Admin.same_but_json opts1 opts2 ->
  Admin.outcome (secrets_list opts1 (start b))
  = Admin.outcome (secrets_list opts2 (start b))
  /\ Admin.outcome (secrets_get name opts1 (start b))
     = Admin.outcome (secrets_get name opts2 (start b))
  /\ Admin.outcome (secrets_grant name code opts1 (start b))
     = Admin.outcome (secrets_grant name code opts2 (start b))
  /\ secrets_set stdin name opts1 (start b)
     = secrets_set stdin name opts2 (start b)
  /\ secrets_delete name opts1 (start b)
     = secrets_delete name opts2 (start b).
Proof.
  intros (Ht & Hd & Hv & Httl & Hc). unfold Admin.outcome.
  split; [|split; [|split; [|split]]]; run_handler.
  - destruct (listSecrets b) as [[l|e] b']; [|reflexivity].
    destruct (flag (opt_json opts1)), (flag (opt_json opts2)), l;
      reflexivity.
  - destruct (getSecret name b) as [[v|e] b']; [|reflexivity].
    destruct (JS.truthy_opt v); reflexivity.
  - rewrite Httl. destruct (JS.truthy_opt (opt_ttl opts2)).
    + destruct (JS.isNaN _ || JS.le_zero _); [reflexivity|].
      cbn. destruct (grantSecret _ _ _ b) as [[z|e] b']; reflexivity.
    + cbn. destruct (grantSecret _ _ _ b) as [[z|e] b']; reflexivity.
  - rewrite Ht, Hv, Hd. reflexivity.
  - rewrite Hc. reflexivity.
Qed.

End MoreHandlerFacts.

(** * Properties of the [setup-totp] and [info] handlers *)

(** Unfold one of the two handlers down to what it awaits or loads. *)
Ltac run_admin :=
  unfold Admin.secrets_setup_totp, Admin.secrets_info, Admin.await_setup,
    Cli.try_catch, Cli.observed, Cli.start, Cli.runtime_log,
    Cli.runtime_error, Cli.runtime_exit, Cli.lift, Cli.throw,
    mbind, mret, Cli.action_bind, Cli.action_ret;
  cbn [Cli.broker Cli.calls Cli.console fst snd app].

Section AdminFacts.

Import Secrets Terminal Cli Admin.

Context {B : Type} {totp : TotpBroker B} {env : Env} {host : Host}.

(** X15.  [secrets setup-totp] shows the enrolment it was given and
    nothing else: with [--json] one line, the JSON object of the secret
    and the URI; without, seven lines, where the QR code is that of the
    URI printed below it, next to the secret.  When [setupTotp] throws,
    the handler writes the error and exits with code 1. *)
Theorem secrets_setup_totp_outcomes (opts : SecretsOpts) (b : B) :
  let r := secrets_setup_totp opts (start b) in
  (forall e, fst (setupTotp b) = Raise e ->
     observed r = ([Error ("Failed to setup TOTP: " +++ e)], Exited 1))
  /\ (forall secret uri, fst (setupTotp b) = Return (secret, uri) ->
        observed r
        = (if flag (opt_json opts)
           then [Log (JS.stringify (JS.JObj [("secret", JS.JStr secret);
                                             ("uri", JS.JStr uri)]))]
           else [Log (heading "TOTP Setup");
                 Log EmptyString;
                 Log (qrcode_generate uri);
                 Log (success "Secret:" +++ " " +++ secret);
                 Log (success "URI:" +++ "    " +++ uri);
                 Log EmptyString;
                 Log (muted ("Scan the QR code above, or enter the secret "
                               +++ "manually in your authenticator app."))],
           Normal tt)).
Proof.
  cbv zeta. split.
  - intros e He. run_admin. destruct (setupTotp b) as [res b'].
    cbn in He. subst res. reflexivity.
  - intros secret uri Hr. run_admin. destruct (setupTotp b) as [res b'].
    cbn in Hr. subst res. cbn.
    destruct (flag (opt_json opts)); reflexivity.
Qed.

(** X16.  [secrets info] only reads: it invokes no broker operation
    and leaves the broker's state as it was.  It returns normally after
    [Log] lines only, or, when the configuration or the registry cannot
    be loaded, writes the error as its only line and exits with code 1. *)
Theorem secrets_info_reads_only (opts : SecretsOpts) (b : B) :
  let r := secrets_info opts (start b) in
  effects r = ([], b)
  /\ reports r [1]
  /\ (forall e, loadConfig = Raise e ->
        observed r = ([Error ("Failed to get info: " +++ e)], Exited 1))
  /\ (forall cfg e, loadConfig = Return cfg ->
        getRegistry_length = Raise e ->
        observed r = ([Error ("Failed to get info: " +++ e)], Exited 1)).
Proof.
  cbv zeta. unfold effects, reports, only_logs.
  split; [|split; [|split]]; run_admin.
  - destruct loadConfig as [cfg|e]; [|reflexivity].
    destruct getRegistry_length as [n|e]; [|reflexivity]. cbn.
    destruct (flag (opt_json opts)); [reflexivity|].
    destruct (default false _); [|reflexivity].
    destruct (default [] _); reflexivity.
  - destruct loadConfig as [cfg|e];
      [|right; do 2 eexists; cbn; repeat split; auto].
    destruct getRegistry_length as [n|e];
      [|right; do 2 eexists; cbn; repeat split; auto].
    left. cbn.
    destruct (flag (opt_json opts));
      [|destruct (default false _); [destruct (default [] _)|]];
      cbn; (split; [reflexivity|]); (split; [discriminate|]);
      repeat constructor; eexists; reflexivity.
  - intros e He. rewrite He. reflexivity.
  - intros cfg e Hc He. rewrite Hc, He. reflexivity.
Qed.

(** X17.  A configuration without a [security.credentials] section,
    absent at whichever level, and without a secrets backend is reported
    with the defaults: mode [legacy], backend [keychain], broker
    disabled, and no line about intercepted tools. *)
Theorem secrets_info_defaults (opts : SecretsOpts) (b : B) (cfg : Config)
    (count : Z) :
  loadConfig = Return cfg -> getRegistry_length = Return count ->
  (security cfg = None
   \/ exists s, security cfg = Some s /\ credentials s = None) ->
  (secrets cfg = None
   \/ exists s, secrets cfg = Some s /\ backend s = None) ->
  flag (opt_json opts) = false ->
  observed (secrets_info opts (start b))
  = ([Log (heading "Credential Broker Status");
      Log EmptyString;
      Log (success "Security Mode:" +++ "    " +++ "legacy");
      Log (success "Backend:" +++ "          " +++ "keychain");
      Log (success "Broker:" +++ "           " +++ muted "disabled");
      Log (success "Secrets Count:" +++ "    " +++ JS.show_int count);
      Log (success "Audit Log:" +++ "        "
             +++ muted (path_join [STATE_DIR; "audit";
                                   "credentials.jsonl"]))],
     Normal tt).
Proof.
  intros Hc Hn Hsec Hback Hj. run_admin. rewrite Hc, Hn. cbn. rewrite Hj.
  assert (Hcred : credentials_of cfg = None).
  { unfold credentials_of.
    destruct Hsec as [-> | (s & -> & Hs)]; [reflexivity|exact Hs]. }
  unfold broker_of. rewrite Hcred.
  destruct Hback as [-> | (s & -> & ->)]; reflexivity.
Qed.

End AdminFacts.

(** * The further properties on concrete invocations *)

Section MoreRuns.

Import Secrets Terminal Cli.

#[local] Existing Instance Fixture.crypto.
#[local] Existing Instance Fixture.env.
#[local] Existing Instance Model.broker.

(** X3 on [secrets set --tier OPEN --value v]. *)
Lemma secrets_set_never_stores_empty_witness :
  let c := SetSecret "k" "v" TierOpen None in
  In c (calls (snd (secrets_set Fixture.terminal_stdin "k"
                      (Fixture.with_tier "OPEN" "v")
                      (start Fixture.enrolled))))
  /\ exists value tier,
       c = SetSecret "k" value tier None
       /\ value <> EmptyString
       /\ parseTier (Some "OPEN") = Return tier.
Proof.
  intros c.
  assert (Hin : In c (calls (snd (secrets_set Fixture.terminal_stdin "k"
                                    (Fixture.with_tier "OPEN" "v")
                                    (start Fixture.enrolled)))))
    by (left; reflexivity).
  split; [exact Hin|].
  exact (secrets_set_never_stores_empty Fixture.terminal_stdin "k"
           (Fixture.with_tier "OPEN" "v") Fixture.enrolled c Hin).
Defined.

(** X4 on a broker whose every operation throws. *)
Lemma broker_failure_reported_witness :
  observed (secrets_list (ops := Fixture.offline) Fixture.no_opts (start tt))
  = ([Error "Failed to list secrets: StorageError: state unavailable"],
     Exited 1)
  /\ observed (secrets_revoke (ops := Fixture.offline) "db-pass" (start tt))
     = ([Error "Failed to revoke grant: StorageError: state unavailable"],
        Exited 1)
  /\ observed (secrets_set (ops := Fixture.offline) Fixture.terminal_stdin
                 "k" (Fixture.with_tier "open" "v") (start tt))
     = ([Error "Failed to set secret: StorageError: state unavailable"],
        Exited 1)
  /\ observed (secrets_grant (ops := Fixture.offline) "db-pass" "123456"
                 Fixture.no_opts (start tt))
     = ([Error "Failed to grant access: StorageError: state unavailable"],
        Exited 1)
  /\ observed (secrets_grant (ops := Fixture.offline) "db-pass" "123456"
                 (Fixture.with_ttl "15") (start tt))
     = ([Error "Failed to grant access: StorageError: state unavailable"],
        Exited 1).
Proof.
  pose proof (broker_failure_reported (ops := Fixture.offline)
                Fixture.terminal_stdin "db-pass" "123456" "v" TierOpen
                Fixture.no_opts tt "StorageError: state unavailable")
    as (Hlist & Hrevoke & _ & _ & Hgrant).
  pose proof (broker_failure_reported (ops := Fixture.offline)
                Fixture.terminal_stdin "k" "123456" "v" TierOpen
                (Fixture.with_tier "open" "v") tt
                "StorageError: state unavailable")
    as (_ & _ & _ & Hset & _).
  pose proof (broker_failure_reported (ops := Fixture.offline)
                Fixture.terminal_stdin "db-pass" "123456" "v" TierOpen
                (Fixture.with_ttl "15") tt
                "StorageError: state unavailable")
    as (_ & _ & _ & _ & Hgrant15).
  split; [apply Hlist; reflexivity|].
  split; [apply Hrevoke; reflexivity|].
  split; [apply Hset;
          [reflexivity|left; reflexivity|discriminate|reflexivity]|].
  split.
  - apply (Hgrant None); [left; reflexivity|reflexivity].
  - apply (Hgrant15 (Some (JS.Num 15))); [left; reflexivity|reflexivity].
Defined.

(** X5 on a terminal and on a standard input that fails. *)
Lemma secrets_set_value_precedence_witness :
  secrets_set Fixture.terminal_stdin "k" (Fixture.with_tier "open" "v")
    (start Fixture.enrolled)
  = secrets_set {| isTTY := false; stream := Failure "EIO" |} "k"
      (Fixture.with_tier "open" "v") (start Fixture.enrolled).
Proof.
  apply (secrets_set_value_precedence Fixture.terminal_stdin
           {| isTTY := false; stream := Failure "EIO" |} "k" "v"
           (Fixture.with_tier "open" "v") (start Fixture.enrolled));
    [reflexivity|discriminate].
Defined.

(** X6 on a pipe that fails with [EIO]. *)
Lemma secrets_set_stdin_failure_witness :
  let r := secrets_set {| isTTY := false; stream := Failure "EIO" |} "k"
             Fixture.no_opts (start Fixture.enrolled) in
  calls (snd r) = [] /\ broker (snd r) = Fixture.enrolled
  /\ observed r = ([Error "Failed to set secret: EIO"], Exited 1).
Proof.
  apply (secrets_set_stdin_failure
           {| isTTY := false; stream := Failure "EIO" |} "k" "EIO"
           TierControlled Fixture.no_opts Fixture.enrolled);
    reflexivity.
Defined.

(** X7 on a value piped between blanks. *)
Lemma secrets_set_piped_trimmed_witness :
  In (SetSecret "k" "v w" TierControlled None)
     (calls (snd (secrets_set (Fixture.piped "  v w  ") "k" Fixture.no_opts
                    (start Fixture.enrolled))))
  /\ "v w" = JS.trim "  v w  " /\ JS.trim "v w" = "v w".
Proof.
  assert (Hin : In (SetSecret "k" "v w" TierControlled None)
                   (calls (snd (secrets_set (Fixture.piped "  v w  ") "k"
                                  Fixture.no_opts (start Fixture.enrolled)))))
    by (left; reflexivity).
  split; [exact Hin|].
  apply (secrets_set_piped_trimmed (Fixture.piped "  v w  ") "k" "  v w  "
           Fixture.no_opts Fixture.enrolled eq_refl eq_refl
           "v w" TierControlled None Hin).
  reflexivity.
Defined.

(** X8 on 125 minutes and on minus 90 minutes. *)
Lemma formatGrantStatus_remaining_witness :
  (exists h m,
     125 = 60 * h + m /\ 0 <= h /\ 0 <= m < 60
     /\ formatGrantStatus true (Some 300000) (Some 125)
        = success (if h =? 0
                   then JS.show_int m +++ "m"
                   else JS.show_int h +++ "h " +++ JS.show_int m +++ "m"))
  /\ formatGrantStatus true (Some 300000) (Some (-90)) = "-30m".
Proof.
  split.
  - apply (proj1 (formatGrantStatus_remaining 300000 125
                    ltac:(discriminate) ltac:(reflexivity)
                    ltac:(split; reflexivity))).
    discriminate.
  - apply (proj2 (formatGrantStatus_remaining 300000 (-90)
                    ltac:(discriminate) ltac:(reflexivity)
                    ltac:(split; reflexivity))).
    reflexivity.
Defined.

(** X9 on an open secret listed with and without a grant. *)
Lemma list_row_open_ignores_grant_witness :
  let bare := {| name := "motd"; tier := TierOpen;
                 grant := {| valid := false; expiresAt := None;
                             remainingMinutes := None |} |} in
  let granted := {| name := "motd"; tier := TierOpen;
                    grant := {| valid := true; expiresAt := Some 300000;
                                remainingMinutes := Some 5 |} |} in
  list_row bare = list_row granted
  /\ map fst (list_row bare) = map key list_columns.
Proof.
  intros bare granted.
  apply (list_row_open_ignores_grant bare granted); reflexivity.
Defined.

(** X10 on a broker without secrets. *)
Lemma secrets_list_empty_witness :
  observed (secrets_list Fixture.no_opts
              (start (Model.initial : Fixture.state)))
  = ([Log "No secrets registered."], Normal tt)
  /\ observed (secrets_list Fixture.with_json
                 (start (Model.initial : Fixture.state)))
     = ([Log "[]"], Normal tt).
Proof.
  split.
  - exact (secrets_list_empty Fixture.no_opts
             (Model.initial : Fixture.state) eq_refl).
  - exact (secrets_list_empty Fixture.with_json
             (Model.initial : Fixture.state) eq_refl).
Defined.

(** X11 on a broker with one restricted secret and a terminal of 80
    columns. *)
Lemma secrets_list_renders_table_witness :
  let listing :=
    [{| name := "db-pass"; tier := TierRestricted;
        grant := {| valid := false; expiresAt := None;
                    remainingMinutes := None |} |}] in
  fst (listSecrets Fixture.enrolled) = Return listing
  /\ exists table,
       observed (secrets_list Fixture.no_opts (start Fixture.enrolled))
       = ([Log (JS.trimEnd (renderTable table))], Normal tt)
       /\ rows table = map list_row listing
       /\ Forall (fun row => map fst row = map key (columns table))
            (rows table)
       /\ 60 <= width table
       /\ (forall c, stdout_columns = Some c -> 60 < c ->
           width table = c - 1)
       /\ (stdout_columns = None -> width table = 119).
Proof.
  intros listing. split; [reflexivity|].
  apply (secrets_list_renders_table Fixture.no_opts Fixture.enrolled listing);
    [reflexivity|discriminate|reflexivity].
Defined.

(** X12 on [--ttl 15] and [--ttl 15min]. *)
Lemma secrets_grant_ttl_suffix_witness :
  secrets_grant "db-pass" "123456" (Fixture.with_ttl "15")
    (start Fixture.enrolled)
  = secrets_grant "db-pass" "123456" (Fixture.with_ttl "15min")
      (start Fixture.enrolled).
Proof.
  apply (secrets_grant_ttl_suffix "db-pass" "123456" "15" "in" "m"
           (Fixture.with_ttl "15") (Fixture.with_ttl "15min")
           (start Fixture.enrolled));
    (reflexivity || discriminate).
Defined.

(** X13 on [Open] and [OPEN]. *)
Lemma parseTier_case_insensitive_witness :
  JS.toLowerCase "Open" = JS.toLowerCase "OPEN"
  /\ (forall tier,
        parseTier (Some "Open") = Return tier
        <-> parseTier (Some "OPEN") = Return tier)
  /\ (forall tier, parseTier (Some (tier_name tier)) = Return tier).
Proof.
  split; [reflexivity|].
  apply (parseTier_case_insensitive "Open" "OPEN");
    (reflexivity || discriminate).
Defined.

(** X14 on a restricted secret without grant, with and without
    [--json]. *)
Lemma json_flag_changes_text_only_witness :
  Admin.same_but_json Fixture.no_opts Fixture.with_json
  /\ Admin.outcome (secrets_list Fixture.no_opts (start Fixture.enrolled))
     = Admin.outcome (secrets_list Fixture.with_json (start Fixture.enrolled))
  /\ Admin.outcome (secrets_grant "db-pass" "123456" Fixture.no_opts
                      (start Fixture.enrolled))
     = Admin.outcome (secrets_grant "db-pass" "123456" Fixture.with_json
                        (start Fixture.enrolled)).
Proof.
  assert (Hsame : Admin.same_but_json Fixture.no_opts Fixture.with_json)
    by (repeat split).
  split; [exact Hsame|].
  pose proof (json_flag_changes_text_only Fixture.terminal_stdin "db-pass"
                "123456" Fixture.no_opts Fixture.with_json Fixture.enrolled
                Hsame) as (Hlist & _ & Hgrant & _).
  split; [exact Hlist|exact Hgrant].
Defined.

#[local] Existing Instance Admin.demo_totp.

(** X15 on an enrolment shown as text. *)
Lemma secrets_setup_totp_outcomes_witness :
  observed (Admin.secrets_setup_totp (host := Admin.demo_host)
              Fixture.no_opts (start tt))
  = ([Log "TOTP Setup";
      Log EmptyString;
      Log "[otpauth://totp/broker?secret=JBSWY3DPEHPK3PXP]";
      Log "Secret: JBSWY3DPEHPK3PXP";
      Log "URI:    otpauth://totp/broker?secret=JBSWY3DPEHPK3PXP";
      Log EmptyString;
      Log ("Scan the QR code above, or enter the secret manually "
             +++ "in your authenticator app.")],
     Normal tt).
Proof.
  etransitivity.
  - apply (proj2 (secrets_setup_totp_outcomes (totp := Admin.demo_totp)
                    (host := Admin.demo_host) Fixture.no_opts tt)
             "JBSWY3DPEHPK3PXP"
             "otpauth://totp/broker?secret=JBSWY3DPEHPK3PXP").
    reflexivity.
  - reflexivity.
Defined.

(** X16 on a host whose configuration cannot be loaded. *)
Lemma secrets_info_reads_only_witness :
  observed (Admin.secrets_info (host := Admin.unreadable_host)
              Fixture.no_opts (start tt))
  = ([Error "Failed to get info: config: invalid JSON"], Exited 1).
Proof.
  apply (proj1 (proj2 (proj2 (secrets_info_reads_only
                                (host := Admin.unreadable_host)
                                Fixture.no_opts tt)))
           "config: invalid JSON").
  reflexivity.
Defined.

(** X17 on an empty configuration and three registered secrets. *)
Lemma secrets_info_defaults_witness :
  observed (Admin.secrets_info (host := Admin.demo_host)
              Fixture.no_opts (start tt))
  = ([Log "Credential Broker Status";
      Log EmptyString;
      Log "Security Mode:    legacy";
      Log "Backend:          keychain";
      Log "Broker:           disabled";
      Log "Secrets Count:    3";
      Log "Audit Log:        /home/u/.openclaw/audit/credentials.jsonl"],
     Normal tt).
Proof.
  etransitivity.
  - apply (secrets_info_defaults (host := Admin.demo_host) Fixture.no_opts tt
             {| Admin.security := None; Admin.secrets := None |} 3);
      try reflexivity; left; reflexivity.
  - reflexivity.
Defined.

End MoreRuns.
